(** * The checkout, tracking and shipment handlers of the storefront backend

    A shallow embedding of [backend/routes/checkout.js],
    [backend/routes/orders.js] and [backend/routes/cart.js] (all in
    [src/ecommerce_app.jsx]) together with the Mongoose models they use.

    Modelling choices, all read off the source:
    - a Mongoose collection is a finite map from [ObjectId] to documents;
      the [carts] collection is keyed by the owning user, since every access
      in the source is [Cart.findOne({ user })];
    - a JS [Number] holding a quantity or a stock level is an integer [Z];
      a [Number] holding a price or a total is an IEEE 754 binary64 value,
      Rocq's primitive [float], and the arithmetic on it is the hardware's;
      a [Date] is the integer that [Date.now()] returns;
    - an id that arrives in a path or a body is the [ObjectId] it casts to:
      the model speaks of requests whose ids are well-formed; where a handler
      compares the sent string itself (the cart routes), the request also
      says whether the id is spelled the way [toString()] spells it;
    - a JSON request body is a finite map from field names to strings; a
      field the body lacks reads as [None] (JS [undefined]);
    - an [async] handler is a program whose steps are its [await]ed database
      operations. A handler that throws (a property read on [null], a failed
      database call) has no [try]/[catch] around it in the source, so its
      promise is rejected, no response is written, and whatever it saved
      before stays saved. *)

From stdpp Require Import gmap strings list fin_maps pretty.
From Stdlib Require Import Floats.

Open Scope Z_scope.

(** ** Documents *)

Definition ObjectId := N.

(** [backend/models/Product.js] *)
Record Product := mkProduct {
  name : string;
  price : float;
  stock : Z;
  codAvailable : bool;
  description : string;
  images : list string
}.

(** The virtual [isAvailable] of the product schema. *)
Definition isAvailable (p : Product) : bool := bool_decide (stock p > 0).

(** [backend/models/Cart.js]: one line of a cart. *)
Record CartItem := mkCartItem {
  product : ObjectId;
  quantity : Z
}.

(** A cart line after [populate('items.product')]: the reference is replaced
    by the product document, or by [null] when no such product exists. *)
Record PopulatedItem := mkPopulatedItem {
  ref : ObjectId;
  populated : option Product;
  qty : Z
}.

(** [backend/models/Shipment.js] *)
Record Shipment := mkShipment {
  trackingNumber : string;
  status : option string;
  updatedAt : Z
}.

(** [backend/models/Order.js] *)
Record OrderItem := mkOrderItem {
  oi_product : ObjectId;
  oi_quantity : Z;
  priceAtPurchase : float;
  cod : bool
}.

Record Order := mkOrder {
  user : ObjectId;
  items : list OrderItem;
  total : float;
  paymentMethod : option string;
  paymentStatus : string;
  shipment : ObjectId;
  createdAt : Z
}.

(** ** The database *)

Record DB := mkDB {
  products : gmap ObjectId Product;
  carts : gmap ObjectId (list CartItem);
  orders : gmap ObjectId Order;
  shipments : gmap ObjectId Shipment
}.

Definition set_products (f : gmap ObjectId Product → gmap ObjectId Product) (db : DB) : DB :=
  mkDB (f (products db)) (carts db) (orders db) (shipments db).
Definition set_carts (f : gmap ObjectId (list CartItem) → gmap ObjectId (list CartItem)) (db : DB) : DB :=
  mkDB (products db) (f (carts db)) (orders db) (shipments db).
Definition set_orders (f : gmap ObjectId Order → gmap ObjectId Order) (db : DB) : DB :=
  mkDB (products db) (carts db) (f (orders db)) (shipments db).
Definition set_shipments (f : gmap ObjectId Shipment → gmap ObjectId Shipment) (db : DB) : DB :=
  mkDB (products db) (carts db) (orders db) (f (shipments db)).

Definition with_stock (s : Z) (p : Product) : Product :=
  mkProduct (name p) (price p) s (codAvailable p) (description p) (images p).

(** Mongoose builds the [_id] of a new document before it is written; all the
    model needs of it is that no stored document has it. *)
Definition newId {V} (m : gmap ObjectId V) : ObjectId := fresh (dom m).

(** What [populate] puts in place of a product reference. *)
Definition populate (db : DB) (i : CartItem) : PopulatedItem :=
  mkPopulatedItem (product i) (products db !! product i) (quantity i).

(** ** Database operations

    One constructor per [await]ed Mongoose call of the two route files; the
    index is the type of the value the call resolves to. *)
Inductive Op : Type → Type :=
  (* Cart.findOne({ user }).populate('items.product') *)
  | CartFindOnePopulate (u : ObjectId) : Op (option (list PopulatedItem))
  (* Product.findById(id) *)
  | ProductFindById (id : ObjectId) : Op (option Product)
  (* product.save() with [stock] the only modified path *)
  | ProductSaveStock (id : ObjectId) (s : Z) : Op unit
  (* Shipment.create(doc) *)
  | ShipmentCreate (s : Shipment) : Op ObjectId
  (* Order.create(doc) *)
  | OrderCreate (o : Order) : Op ObjectId
  (* cart.save() with [items] the only modified path *)
  | CartSaveItems (u : ObjectId) (its : list CartItem) : Op unit
  (* Order.findById(id) *)
  | OrderFindById (id : ObjectId) : Op (option Order)
  (* Order.findById(id).populate('shipment') *)
  | OrderFindByIdPopulate (id : ObjectId) : Op (option (Order * option Shipment))
  (* Shipment.findById(id) *)
  | ShipmentFindById (id : ObjectId) : Op (option Shipment)
  (* shipment.save() with [status] and [updatedAt] the modified paths *)
  | ShipmentSaveStatus (id : ObjectId) (st : option string) (at_ : Z) : Op unit.

(** What Mongoose hands out when it loads a shipment: a document stored
    without [status] comes with the schema default, "Created". *)
Definition loaded (s : Shipment) : Shipment :=
  mkShipment (trackingNumber s) (Some (default "Created" (status s))) (updatedAt s).

(** [save()] of a document that is no longer stored rejects; the other calls
    always resolve. [None] stands for a rejected promise. Not modelled: the
    version check of [save()], which rejects a [cart.save()] when another
    handler rewrote the cart's items since it was read; and the rejection of
    [create] for values Mongoose cannot cast. *)
Definition exec {X} (op : Op X) (db : DB) : option (X * DB) :=
  match op in Op X return option (X * DB) with
  | CartFindOnePopulate u => Some (map (populate db) <$> carts db !! u, db)
  | ProductFindById id => Some (products db !! id, db)
  | ProductSaveStock id s =>
      match products db !! id with
      | Some p => Some (tt, set_products <[id := with_stock s p]> db)
      | None => None
      end
  | ShipmentCreate s =>
      let id := newId (shipments db) in
      Some (id, set_shipments <[id := s]> db)
  | OrderCreate o =>
      let id := newId (orders db) in
      Some (id, set_orders <[id := o]> db)
  | CartSaveItems u its =>
      match carts db !! u with
      | Some _ => Some (tt, set_carts <[u := its]> db)
      | None => None
      end
  | OrderFindById id => Some (orders db !! id, db)
  | OrderFindByIdPopulate id =>
      Some ((λ o, (o, loaded <$> shipments db !! shipment o)) <$> orders db !! id, db)
  | ShipmentFindById id => Some (loaded <$> shipments db !! id, db)
  | ShipmentSaveStatus id st t =>
      match shipments db !! id with
      | Some s => Some (tt, set_shipments <[id := mkShipment (trackingNumber s) st t]> db)
      | None => None
      end
  end.

(** ** Handlers as programs *)

Inductive Prog (R : Type) : Type :=
  | Ret (r : R)
  | Throw
  | Await {X : Type} (op : Op X) (k : X → Prog R).
Arguments Ret {R} r.
Arguments Throw {R}.
Arguments Await {R X} op k.

Notation "x ← 'await' op ; k" := (Await op (λ x, k))
  (at level 20, op at level 100, k at level 200, right associativity,
   format "'[v' x  ←  'await'  op ; '/' k ']'").

(** How a handler ends: it wrote a response, or its promise was rejected and
    the client gets none. *)
Inductive Outcome (R : Type) : Type :=
  | Responded (r : R)
  | Rejected.
Arguments Responded {R} r.
Arguments Rejected {R}.

(** A handler run alone, from its first line to its last. [fault = Some n]
    makes the [n]-th database call from here reject (the store is down, a
    write fails); [None] is a run in which the store never fails. *)
Fixpoint run {R} (fault : option nat) (p : Prog R) (db : DB) : Outcome R * DB :=
  match p with
  | Ret r => (Responded r, db)
  | Throw => (Rejected, db)
  | Await op k =>
      match fault with
      | Some O => (Rejected, db)
      | _ =>
          match exec op db with
          | Some (x, db') => run (Nat.pred <$> fault) (k x) db'
          | None => (Rejected, db)
          end
      end
  end.

(** ** Responses *)

Inductive Body :=
  | ErrorBody (error : string)
  | CheckoutBody (orderId : ObjectId) (paymentRequired : bool) (message : string)
  | TrackingBody (trackingNumber : string) (status : option string)
  | OkBody (ok : bool).

Record Response := mkResponse { code : nat; body : Body }.

(** [res.json(b)] and [res.status(c).json(b)] *)
Definition json (b : Body) : Response := mkResponse 200 b.
Definition status_json (c : nat) (b : Body) : Response := mkResponse c b.

(** ** [backend/routes/checkout.js], [router.post('/')] *)

(** The [// Validate stock] loop; [k] is the rest of the handler. *)
Fixpoint validateStock (its : list PopulatedItem) (k : Prog Response) : Prog Response :=
  match its with
  | [] => k
  | item :: rest =>
      match populated item with
      | None => Throw (* item.product._id with item.product null *)
      | Some _ =>
          product ← await ProductFindById (ref item);
          match product with
          | None => Throw (* product.stock with product null *)
          | Some product =>
              if bool_decide (stock product < qty item)
              then Ret (status_json 400 (ErrorBody ("Not enough stock for " +:+ name product)))
              else validateStock rest k
          end
      end
  end.

(** The [// Reserve/decrement stock] loop. *)
Fixpoint reserveStock (its : list PopulatedItem) (k : Prog Response) : Prog Response :=
  match its with
  | [] => k
  | item :: rest =>
      match populated item with
      | None => Throw
      | Some _ =>
          product ← await ProductFindById (ref item);
          match product with
          | None => Throw
          | Some product =>
              _ ← await ProductSaveStock (ref item) (stock product - qty item);
              reserveStock rest k
          end
      end
  end.

(** [cart.items.map(i => ({ product: i.product._id, ... }))]; the callback
    throws on a line whose product is [null]. *)
Definition orderItem (i : PopulatedItem) : option OrderItem :=
  p ← populated i; Some (mkOrderItem (ref i) (qty i) (price p) (codAvailable p)).

Definition orderItems (its : list PopulatedItem) : option (list OrderItem) :=
  mapM orderItem its.

(** The double that holds an integer: the integer itself up to 2^53 in
    magnitude, the nearest double beyond. *)
Definition toNumber (z : Z) : float :=
  SF2Prim (binary_normalize prec emax z 0 false).

(** [items.reduce((s,it) => s + it.quantity*it.priceAtPurchase, 0)], in the
    arithmetic of doubles. *)
Definition orderTotal (its : list OrderItem) : float :=
  foldl (λ s it, (s + toNumber (oi_quantity it) * priceAtPurchase it)%float) 0%float its.

(** The handler from [// Create shipment record] to its last line. The
    source reads [Date.now()] three times in this stretch (for the tracking
    number and, through the schema defaults, for [updatedAt] and
    [createdAt]); the model takes the one reading [now] for the three. *)
Definition createOrder (now : Z) (uid : ObjectId) (paymentMethod : option string)
    (its : list OrderItem) : Prog Response :=
  let total := orderTotal its in
  sid ← await ShipmentCreate (mkShipment ("TRK-" +:+ pretty now) (Some "Created") now);
  oid ← await OrderCreate
          (mkOrder uid its total paymentMethod
             (if bool_decide (paymentMethod = Some "cod") then "Pending" else "Processing")
             sid now);
  _ ← await CartSaveItems uid [];
  Ret (json (CheckoutBody oid (bool_decide (paymentMethod ≠ Some "cod"))
               "Order created. Proceed to payment if needed.")).

(** [Date.now()] is read by the handler; its value is the input [now]. The
    destructuring [const { paymentMethod, shippingAddress } = req.body] reads
    two fields of the body, and [shippingAddress] is not used again. *)
Definition checkout (now : Z) (uid : ObjectId) (req : gmap string string) : Prog Response :=
  let paymentMethod := req !! "paymentMethod" in
  cart ← await CartFindOnePopulate uid;
  match cart with
  | None | Some [] => Ret (status_json 400 (ErrorBody "Empty cart"))
  | Some cart_items =>
      validateStock cart_items (
      reserveStock cart_items (
      match orderItems cart_items with
      | None => Throw
      | Some its => createOrder now uid paymentMethod its
      end))
  end.

(** ** [backend/routes/orders.js] *)

(** [router.get('/:id/tracking')] *)
Definition tracking (id : ObjectId) : Prog Response :=
  order ← await OrderFindByIdPopulate id;
  match order with
  | None => Ret (status_json 404 (ErrorBody "Order not found"))
  | Some (_, None) => Throw (* order.shipment.trackingNumber with shipment null *)
  | Some (_, Some s) => Ret (json (TrackingBody (trackingNumber s) (status s)))
  end.

(** [router.post('/:id/shipment')] *)
Definition updateShipment (now : Z) (id : ObjectId) (req : gmap string string) : Prog Response :=
  let status := req !! "status" in
  order ← await OrderFindById id;
  match order with
  | None => Ret (status_json 404 (ErrorBody "Order not found"))
  | Some order =>
      shipmentDoc ← await ShipmentFindById (shipment order);
      match shipmentDoc with
      | None => Throw (* shipment.status = ... with shipment null *)
      | Some _ =>
          _ ← await ShipmentSaveStatus (shipment order) status now;
          Ret (json (OkBody true))
      end
  end.

(** ** Several requests in flight

    Node runs one handler at a time and switches handlers only at an
    [await]. A pool holds what is left of each request's handler; [step i]
    lets request [i] perform its pending database call and run on to its
    next [await]. *)
Definition Pool := list (Prog Response).

Definition step (i : nat) (st : Pool * DB) : Pool * DB :=
  match st.1 !! i with
  | Some (Await op k) =>
      match exec op st.2 with
      | Some (x, db') => (<[i := k x]> st.1, db')
      | None => (<[i := Throw]> st.1, st.2)
      end
  | _ => st
  end.

Definition schedule (sched : list nat) (st : Pool * DB) : Pool * DB :=
  foldl (λ st i, step i st) st sched.

Definition finished {R} (p : Prog R) : option (Outcome R) :=
  match p with
  | Ret r => Some (Responded r)
  | Throw => Some Rejected
  | Await _ _ => None
  end.

(** ** Vocabulary of the statements *)

(** A cart line passes the stock check in [db]. *)
Definition in_stock (db : DB) (i : CartItem) : Prop :=
  ∃ p, products db !! product i = Some p ∧ quantity i ≤ stock p.

(** The quantity of product [pid] a cart asks for, over all its lines. *)
Definition cart_qty (pid : ObjectId) (cart : list CartItem) : Z :=
  foldr (λ i acc, (if bool_decide (product i = pid) then quantity i else 0) + acc) 0 cart.



(** A 200 response. *)
Definition succeeded (out : Outcome Response) : bool :=
  match out with
  | Responded r => bool_decide (code r = 200%nat)
  | Rejected => false
  end.

(** The effect of one pass of the decrement loop on the products. *)
Definition decrement (m : gmap ObjectId Product) (i : PopulatedItem) : gmap ObjectId Product :=
  match m !! ref i with
  | Some p => <[ref i := with_stock (stock p - qty i) p]> m
  | None => m
  end.

Definition reserved (its : list PopulatedItem) (m : gmap ObjectId Product) : gmap ObjectId Product :=
  foldl decrement m its.

(** Where a fault lands once [m] database calls have gone through. *)
Definition shift (m : nat) (fault : option nat) : option nat :=
  (λ n, (n - m)%nat) <$> fault.

Definition fault_after (m : nat) (fault : option nat) : Prop :=
  ∀ n, fault = Some n → (m ≤ n)%nat.

(** The documents a successful checkout writes. *)
Definition newShipment (now : Z) : Shipment :=
  mkShipment ("TRK-" +:+ pretty now) (Some "Created") now.

Definition newOrder (now : Z) (uid : ObjectId) (req : gmap string string)
    (its : list OrderItem) (sid : ObjectId) : Order :=
  mkOrder uid its (orderTotal its) (req !! "paymentMethod")
    (if bool_decide (req !! "paymentMethod" = Some "cod") then "Pending" else "Processing")
    sid now.

(** The store after the decrement loop, after the shipment write, after the
    order write and after the cart write of a checkout of [cart]. *)
Definition db_reserved (cart : list CartItem) (db : DB) : DB :=
  set_products (reserved (populate db <$> cart)) db.

Definition db_shipped (now : Z) (cart : list CartItem) (db : DB) : DB :=
  set_shipments <[newId (shipments db) := newShipment now]> (db_reserved cart db).

Definition db_ordered (now : Z) (uid : ObjectId) (req : gmap string string)
    (cart : list CartItem) (its : list OrderItem) (db : DB) : DB :=
  set_orders <[newId (orders db) := newOrder now uid req its (newId (shipments db))]>
    (db_shipped now cart db).

Definition db_committed (now : Z) (uid : ObjectId) (req : gmap string string)
    (cart : list CartItem) (its : list OrderItem) (db : DB) : DB :=
  set_carts <[uid := []]> (db_ordered now uid req cart its db).

Definition checkoutOk (req : gmap string string) (oid : ObjectId) : Response :=
  json (CheckoutBody oid (bool_decide (req !! "paymentMethod" ≠ Some "cod"))
          "Order created. Proceed to payment if needed.").

(** ** Requests served one after the other *)

Record Attempt := mkAttempt {
  at_now : Z;
  at_user : ObjectId;
  at_req : gmap string string
}.

(** One checkout request handled from start to end with no other handler
    in between and no database failure. *)
Definition attempt (a : Attempt) (db : DB) : Outcome Response * DB :=
  run None (checkout (at_now a) (at_user a) (at_req a)) db.

Fixpoint serve (reqs : list Attempt) (db : DB) : DB :=
  match reqs with
  | [] => db
  | a :: rest => serve rest (attempt a db).2
  end.



Definition stock_of (pid : ObjectId) (db : DB) : option Z :=
  stock <$> products db !! pid.

(** No cart lists a product twice; [POST /cart/add] keeps carts so, by
    raising the quantity of a line it finds. *)
Definition carts_distinct (db : DB) : Prop :=
  ∀ u cart, carts db !! u = Some cart → NoDup (product <$> cart).


(** The status a client sees for an order, and the trace of a run of
    shipment updates on it: each response with the status seen after it. *)
Definition observed (id : ObjectId) (db : DB) : option string :=
  o ← orders db !! id; s ← shipments db !! shipment o; status (loaded s).

Fixpoint updates (id : ObjectId) (reqs : list (Z * gmap string string)) (db : DB)
    : list (Outcome Response * option string) :=
  match reqs with
  | [] => []
  | (now, req) :: rest =>
      let res := run None (updateShipment now id req) db in
      (res.1, observed id res.2) :: updates id rest res.2
  end.

(** ** Sample stores *)

(** One unit of product 1 (10 a piece, cash on delivery allowed); users 7
    and 8 each hold a cart asking for one unit. *)
Definition last_unit : DB :=
  mkDB {[ 1%N := mkProduct "P" 10 1 true "" [] ]}
       {[ 7%N := [mkCartItem 1%N 1]; 8%N := [mkCartItem 1%N 1] ]} ∅ ∅.

(** Two units of product 1 and a cart of user 7 asking for one. *)
Definition two_units : DB :=
  mkDB {[ 1%N := mkProduct "P" 10 2 true "" [] ]} {[ 7%N := [mkCartItem 1%N 1] ]} ∅ ∅.

(** A cart that lists product 1 on two lines. *)
Definition doubled_line : DB :=
  mkDB {[ 1%N := mkProduct "P" 10 1 true "" [] ]}
       {[ 7%N := [mkCartItem 1%N 1; mkCartItem 1%N 1] ]} ∅ ∅.

(** A cart whose second line asks for more than is stored. *)
Definition short_second : DB :=
  mkDB {[ 1%N := mkProduct "P" 10 5 true "" []; 2%N := mkProduct "Q" 3 1 false "" [] ]}
       {[ 7%N := [mkCartItem 1%N 2; mkCartItem 2%N 4] ]} ∅ ∅.

(** An order placed and its shipment in state Created. *)
Definition placed : DB :=
  mkDB {[ 1%N := mkProduct "P" 10 0 true "" [] ]} {[ 7%N := [] ]}
       {[ 0%N := mkOrder 7%N [mkOrderItem 1%N 1 10 true] 10 (Some "cod") "Pending" 0%N 1700 ]}
       {[ 0%N := mkShipment "TRK-1700" (Some "Created") 1700 ]}.

(** An order whose shipment reference resolves to no stored shipment. *)
Definition dangling : DB :=
  mkDB ∅ ∅
       {[ 0%N := mkOrder 7%N [mkOrderItem 1%N 1 10 true] 10 (Some "cod") "Pending" 5%N 1700 ]}
       ∅.

Definition cod_req : gmap string string := {[ "paymentMethod" := "cod" ]}.
Definition card_req : gmap string string := {[ "paymentMethod" := "card" ]}.
Definition keyed_req : gmap string string :=
  {[ "paymentMethod" := "cod"; "idempotencyKey" := "k-1" ]}.

(** ** [backend/routes/cart.js]

    The four cart routes, each as the effect of its handler run alone with a
    store that does not fail. The body fields the handlers destructure are
    arguments; [quantity] is a number, absent ([None]) where the body has
    none. *)

(** A [productId] as the body carries it: the [ObjectId] the sent string
    casts to, and whether the string is spelled the way [toString()] spells
    that id (lower-case hex). A string that casts to no [ObjectId] is not
    modelled. *)
Record SentId := mkSentId {
  sent : ObjectId;
  canonical : bool
}.

(** [i.product.toString() === productId]: a comparison of strings, true when
    the line holds the id sent and the id was sent in that spelling. *)
Definition same_string (productId : SentId) (i : CartItem) : bool :=
  canonical productId && bool_decide (product i = sent productId).

Inductive CartBody :=
  | PopulatedCart (its : list PopulatedItem)
  | CartDoc (its : list CartItem)
  | CartError (error : string).

Record CartResponse := mkCartResponse { cart_code : nat; cart_body : CartBody }.

(** [router.get('/')]: the populated cart, or a new empty one. *)
Definition getCart (uid : ObjectId) (db : DB) : CartResponse * DB :=
  match carts db !! uid with
  | Some its => (mkCartResponse 200 (PopulatedCart (populate db <$> its)), db)
  | None => (mkCartResponse 200 (PopulatedCart []), set_carts <[uid := []]> db)
  end.

(** [router.post('/add')], with [{ productId, quantity=1 } = req.body]. The
    line pushed holds the id the string casts to. *)
Definition addToCart (uid : ObjectId) (productId : SentId) (quantity_ : option Z) (db : DB)
    : CartResponse * DB :=
  let q := default 1 quantity_ in
  let its := default [] (carts db !! uid) in (* findOne, else create with items: [] *)
  let its' :=
    match list_find (λ i, same_string productId i = true) its with
    | Some (itemIndex, _) =>
        alter (λ i, mkCartItem (product i) (quantity i + q)) itemIndex its
    | None => its ++ [mkCartItem (sent productId) q]
    end in
  (mkCartResponse 200 (CartDoc its'), set_carts <[uid := its']> db).

(** [router.post('/update')]. A matching line is rebuilt as
    [{ ...i.toObject(), quantity }]; with no [quantity] in the body the
    rebuilt line gets the schema default, 1. *)
Definition updateCart (uid : ObjectId) (productId : SentId) (quantity_ : option Z) (db : DB)
    : CartResponse * DB :=
  match carts db !! uid with
  | None => (mkCartResponse 400 (CartError "Cart not found"), db)
  | Some its =>
      let its1 :=
        (λ i, if same_string productId i
              then mkCartItem (product i) (default 1 quantity_) else i) <$> its in
      let its2 := filter (λ i, quantity i > 0) its1 in
      (mkCartResponse 200 (CartDoc its2), set_carts <[uid := its2]> db)
  end.

(** [router.post('/remove')] *)
Definition removeFromCart (uid : ObjectId) (productId : SentId) (db : DB)
    : CartResponse * DB :=
  match carts db !! uid with
  | None => (mkCartResponse 400 (CartError "Cart not found"), db)
  | Some its =>
      let its' := filter (λ i, same_string productId i = false) its in
      (mkCartResponse 200 (CartDoc its'), set_carts <[uid := its']> db)
  end.

(** The caller's cart as the checkout handler will read it. *)
Definition cart_of (uid : ObjectId) (db : DB) : list CartItem :=
  default [] (carts db !! uid).

(** ** [backend/routes/orders.js], [router.get('/')]

    [Order.find({ user }).populate('items.product').populate('shipment')]:
    the caller's orders, each with the product documents its lines point to
    and its shipment document as Mongoose loads it, [null] where a reference
    resolves to nothing.
    The order of the array is not modelled. *)
Record ListedOrder := mkListedOrder {
  lo_id : ObjectId;
  lo_order : Order;
  lo_products : list (option Product);
  lo_shipment : option Shipment
}.

Definition listOrders (uid : ObjectId) (db : DB) : list ListedOrder :=
  (λ io : ObjectId * Order,
     mkListedOrder io.1 io.2 ((λ it, products db !! oi_product it) <$> items io.2)
       (loaded <$> shipments db !! shipment io.2))
    <$> map_to_list (filter (λ io : ObjectId * Order, user io.2 = uid) (orders db)).

(** ** What the handlers keep *)

(** Every stored order points to a stored shipment. *)
Definition orders_have_shipments (db : DB) : Prop :=
  ∀ id o, orders db !! id = Some o → is_Some (shipments db !! shipment o).

(** A program writes orders only for shipments it knows to be stored:
    those in [known], and those it created itself on the way. *)
Fixpoint refs_ok (p : Prog Response) (known : gset ObjectId) : Prop :=
  match p with
  | Ret _ | Throw => True
  | Await op k =>
      match op in Op X return (X → gset ObjectId → Prop) → Prop with
      | OrderCreate o => λ rest, shipment o ∈ known ∧ ∀ oid, rest oid known
      | ShipmentCreate _ => λ rest, ∀ sid, rest sid ({[sid]} ∪ known)
      | _ => λ rest, ∀ x, rest x known
      end (λ x, refs_ok (k x))
  end.




(** The three handlers that run as programs. *)
Inductive handler : Prog Response → Prop :=
  | handler_checkout now uid req : handler (checkout now uid req)
  | handler_tracking id : handler (tracking id)
  | handler_updateShipment now id req : handler (updateShipment now id req).

(** The catalog with the stock levels blanked: names, prices, codAvailable
    flags, descriptions and images of all products. *)
Definition catalog (db : DB) : gmap ObjectId Product := with_stock 0 <$> products db.

(** Shipments stay, and keep their tracking numbers. *)
Definition tracking_kept (db db' : DB) : Prop :=
  ∀ id s, shipments db !! id = Some s →
    ∃ s', shipments db' !! id = Some s' ∧ trackingNumber s' = trackingNumber s.




(** A cart whose first line names a product that is not stored and whose
    second line asks for more than is stored. *)
Definition missing_then_short : DB :=
  mkDB {[ 1%N := mkProduct "P" 10 1 true "" [] ]}
       {[ 7%N := [mkCartItem 9%N 1; mkCartItem 1%N 5] ]} ∅ ∅.

(** An order placed, and a cart of another user. *)
Definition placed_and_cart : DB :=
  set_carts (λ _, {[ 8%N := [mkCartItem 1%N 0] ]}) placed.


(** * Properties *)

(** ** The two loops of checkout *)

Lemma shift_0 f : shift 0 f = f.
Proof. destruct f as [n|]; simpl; [f_equal; lia | done]. Qed.

Lemma shift_pred m f :
  fault_after (S m) f → shift m (Nat.pred <$> f) = shift (S m) f.
Proof.
  intros Hf. destruct f as [n|]; simpl; [|done].
  specialize (Hf n eq_refl). f_equal. lia.
Qed.

Lemma fault_after_pred m f : fault_after (S m) f → fault_after m (Nat.pred <$> f).
Proof.
  intros Hf n Hn. destruct f as [n'|]; simplify_eq/=.
  specialize (Hf n' eq_refl). lia.
Qed.

Lemma fault_after_None m : fault_after m None.
Proof. intros n Hn. discriminate. Qed.

(** Where the fault lies, read off the hypothesis that puts it late enough. *)
Ltac fault_side :=
  lazymatch goal with
  | |- fault_after _ None => apply fault_after_None
  | Hf : fault_after _ ?f |- fault_after _ _ =>
      let n := fresh "n" in
      intros n ?; destruct f as [?|]; simplify_eq/=;
      specialize (Hf _ eq_refl); simpl in Hf; lia
  end.

(** One database call that resolves, away from the fault. *)
Lemma run_await {R X} f (op : Op X) (k : X → Prog R) db x db' :
  fault_after 1 f →
  exec op db = Some (x, db') →
  run f (Await op k) db = run (Nat.pred <$> f) (k x) db'.
Proof.
  intros Hf He. simpl. rewrite He.
  destruct f as [[|n]|]; [specialize (Hf 0%nat eq_refl); lia | done | done].
Qed.

(** All lines in stock: the validation loop falls through to the rest of
    the handler without touching the store. *)
Lemma validate_pass db cart k f :
  Forall (in_stock db) cart →
  fault_after (length cart) f →
  run f (validateStock (populate db <$> cart) k) db = run (shift (length cart) f) k db.
Proof.
  revert f. induction cart as [|i cart IH]; intros f Hall Hf.
  - by rewrite shift_0.
  - apply Forall_cons in Hall as [(p & Hp & Hq) Hall].
    cbn [fmap list_fmap validateStock populate populated ref qty length].
    rewrite Hp.
    rewrite (run_await f (ProductFindById (product i)) _ db (Some p) db);
      [| fault_side | by cbn; rewrite Hp].
    rewrite bool_decide_eq_false_2 by lia.
    rewrite <- (shift_pred (length cart) f Hf).
    apply IH; [done | fault_side].
Qed.

(** The first line that is not in stock is short of stock: the loop answers
    400 with that product's name, and the store is as it was. *)
Lemma validate_short db pre i post p k :
  Forall (in_stock db) pre →
  products db !! product i = Some p →
  stock p < quantity i →
  run None (validateStock (populate db <$> (pre ++ i :: post)) k) db
  = (Responded (status_json 400 (ErrorBody ("Not enough stock for " +:+ name p))), db).
Proof.
  intros Hpre Hp Hlt. induction pre as [|j pre IH].
  - cbn [app fmap list_fmap validateStock populate populated ref qty run exec].
    rewrite Hp. cbn. rewrite Hp. cbn. by rewrite bool_decide_eq_true_2 by lia.
  - apply Forall_cons in Hpre as [(q & Hq & Hle) Hpre].
    cbn [app fmap list_fmap validateStock populate populated ref qty].
    rewrite Hq.
    rewrite (run_await None (ProductFindById (product j)) _ db (Some q) db);
      [| fault_side | by cbn; rewrite Hq].
    rewrite bool_decide_eq_false_2 by lia. by apply IH.
Qed.

(** The first line that is not in stock names a product that is gone: the
    loop throws on [null], and the store is as it was. *)
Lemma validate_broken db pre i post k :
  Forall (in_stock db) pre →
  products db !! product i = None →
  run None (validateStock (populate db <$> (pre ++ i :: post)) k) db = (Rejected, db).
Proof.
  intros Hpre Hp. induction pre as [|j pre IH].
  - cbn [app fmap list_fmap validateStock populate populated ref qty run exec].
    by rewrite Hp.
  - apply Forall_cons in Hpre as [(q & Hq & Hle) Hpre].
    cbn [app fmap list_fmap validateStock populate populated ref qty].
    rewrite Hq.
    rewrite (run_await None (ProductFindById (product j)) _ db (Some q) db);
      [| fault_side | by cbn; rewrite Hq].
    rewrite bool_decide_eq_false_2 by lia. by apply IH.
Qed.

(** Every cart either passes the stock check or has a first line that does
    not. *)
Lemma first_failing db (cart : list CartItem) :
  Forall (in_stock db) cart ∨
  ∃ pre i post, cart = pre ++ i :: post ∧ Forall (in_stock db) pre ∧
    (products db !! product i = None ∨
     ∃ p, products db !! product i = Some p ∧ stock p < quantity i).
Proof.
  induction cart as [|i cart IH]; [by left|].
  destruct (products db !! product i) as [p|] eqn:Hp.
  - destruct (decide (quantity i ≤ stock p)) as [Hle|Hgt].
    + destruct IH as [Hall | (pre & j & post & -> & Hpre & Hj)].
      * left. constructor; [by exists p | done].
      * right. exists (i :: pre), j, post. split; [done|].
        split; [constructor; [by exists p | done] | done].
    + right. exists [], i, cart. split; [done|]. split; [constructor|].
      right. exists p. split; [done | lia].
  - right. exists [], i, cart. split; [done|]. split; [constructor | by left].
Qed.

(** The decrement loop: with every line's product stored, each pass reads
    the product and writes its stock back, two database calls a line. *)
Lemma reserve_run db (its : list PopulatedItem) k f :
  Forall (λ i, is_Some (populated i) ∧ is_Some (products db !! ref i)) its →
  fault_after (2 * length its) f →
  run f (reserveStock its k) db
  = run (shift (2 * length its) f) k (set_products (reserved its) db).
Proof.
  revert db f. induction its as [|i its IH]; intros db f Hall Hf.
  - rewrite shift_0. by destruct db.
  - apply Forall_cons in Hall as [([pp Hpp] & [p Hp]) Hall].
    cbn [reserveStock]. rewrite Hpp.
    rewrite (run_await f (ProductFindById (ref i)) _ db (Some p) db);
      [| fault_side | by cbn; rewrite Hp].
    rewrite (run_await _ (ProductSaveStock (ref i) (stock p - qty i)) _ db tt
               (set_products <[ref i := with_stock (stock p - qty i) p]> db));
      [| fault_side | by cbn; rewrite Hp].
    rewrite IH.
    + f_equal.
      * destruct f as [n|]; simpl; [|done]. specialize (Hf n eq_refl).
        simpl in Hf. f_equal. lia.
      * unfold set_products, reserved. cbn [foldl products carts orders shipments].
        unfold decrement at 3. by rewrite Hp.
    + eapply Forall_impl; [exact Hall|]. intros j [Hj1 Hj2]. split; [done|].
      cbn. destruct (decide (ref i = ref j)) as [->|Hne].
      * rewrite lookup_insert_eq. by eexists.
      * by rewrite lookup_insert_ne.
    + fault_side.
Qed.


(** ** Checkout as a whole *)

(** The lines of the order built from a cart whose products are stored. *)
Lemma orderItems_populate db (cart : list CartItem) :
  Forall (λ i, is_Some (products db !! product i)) cart →
  ∃ its, orderItems (populate db <$> cart) = Some its ∧
    Forall2 (λ i it, ∃ p, products db !! product i = Some p ∧
               it = mkOrderItem (product i) (quantity i) (price p) (codAvailable p))
      cart its.
Proof.
  induction 1 as [|i cart [p Hp] _ (its & Hits & HF)].
  - by exists [].
  - exists (mkOrderItem (product i) (quantity i) (price p) (codAvailable p) :: its).
    split.
    + unfold orderItems in *. cbn. rewrite Hp. cbn. by rewrite Hits.
    + constructor; [by exists p | done].
Qed.

Lemma in_stock_stored db (cart : list CartItem) :
  Forall (in_stock db) cart → Forall (λ i, is_Some (products db !! product i)) cart.
Proof. intros H. eapply Forall_impl; [exact H|]. intros i (p & Hp & _). by exists p. Qed.

Section Checkout.
Context (now : Z) (uid : ObjectId) (req : gmap string string).

(** A cart that passes the stock check takes the handler through both loops:
    one database call for the cart, one a line to validate, two a line to
    decrement; the store then holds the lowered stocks and nothing else new. *)
Lemma checkout_reserves db cart its f :
  carts db !! uid = Some cart →
  cart ≠ [] →
  Forall (in_stock db) cart →
  orderItems (populate db <$> cart) = Some its →
  fault_after (1 + 3 * length cart) f →
  run f (checkout now uid req) db
  = run (shift (1 + 3 * length cart) f)
      (createOrder now uid (req !! "paymentMethod") its) (db_reserved cart db).
Proof.
  intros Hcart Hne Hall Hits Hf. unfold checkout.
  rewrite (run_await f (CartFindOnePopulate uid) _ db (Some (populate db <$> cart)) db);
    [| fault_side | by cbn; rewrite Hcart].
  destruct cart as [|i0 cart0] eqn:Ecart; [done|]. rewrite <- Ecart in *.
  replace (populate db <$> i0 :: cart0) with (populate db <$> cart) by by rewrite Ecart.
  assert (Hshape : ∀ (P : Prog Response) Q,
    match populate db <$> cart with [] => P | _ :: _ => Q end = Q)
    by (intros; by rewrite Ecart).
  rewrite Hshape.
  rewrite validate_pass;
    [| done | fault_side].
  rewrite reserve_run.
  - rewrite Hits, length_fmap. f_equal.
    destruct f as [n|]; [|done]. specialize (Hf n eq_refl). cbn. f_equal. lia.
  - apply Forall_fmap. eapply Forall_impl; [exact Hall|].
    intros i (p & Hp & _). cbn. rewrite Hp. split; by eexists.
  - rewrite length_fmap. fault_side.
Qed.

(** A checkout that nothing interrupts and whose cart passes the stock
    check answers 200 with the id of the order it wrote. *)
Lemma checkout_commits db cart its :
  carts db !! uid = Some cart →
  cart ≠ [] →
  Forall (in_stock db) cart →
  orderItems (populate db <$> cart) = Some its →
  run None (checkout now uid req) db
  = (Responded (checkoutOk req (newId (orders db))), db_committed now uid req cart its db).
Proof.
  intros Hcart Hne Hall Hits.
  rewrite (checkout_reserves db cart its None)
    by (done || fault_side).
  cbn. by rewrite Hcart.
Qed.

(** The outcomes of a checkout that nothing interrupts, by the state of the
    caller's cart. *)
Lemma checkout_empty db :
  carts db !! uid = None ∨ carts db !! uid = Some [] →
  run None (checkout now uid req) db
  = (Responded (status_json 400 (ErrorBody "Empty cart")), db).
Proof. intros [H|H]; cbn; by rewrite H. Qed.

Lemma checkout_short db pre i post p :
  carts db !! uid = Some (pre ++ i :: post) →
  Forall (in_stock db) pre →
  products db !! product i = Some p →
  stock p < quantity i →
  run None (checkout now uid req) db
  = (Responded (status_json 400 (ErrorBody ("Not enough stock for " +:+ name p))), db).
Proof.
  intros Hcart Hpre Hp Hlt. unfold checkout.
  rewrite (run_await None (CartFindOnePopulate uid) _ db
             (Some (populate db <$> (pre ++ i :: post))) db);
    [| fault_side | by cbn; rewrite Hcart].
  destruct (populate db <$> pre ++ i :: post) as [|x l] eqn:E.
  { by destruct pre. }
  rewrite <- E. by apply validate_short.
Qed.

Lemma checkout_broken db pre i post :
  carts db !! uid = Some (pre ++ i :: post) →
  Forall (in_stock db) pre →
  products db !! product i = None →
  run None (checkout now uid req) db = (Rejected, db).
Proof.
  intros Hcart Hpre Hp. unfold checkout.
  rewrite (run_await None (CartFindOnePopulate uid) _ db
             (Some (populate db <$> (pre ++ i :: post))) db);
    [| fault_side | by cbn; rewrite Hcart].
  destruct (populate db <$> pre ++ i :: post) as [|x l] eqn:E.
  { by destruct pre. }
  rewrite <- E. by apply validate_broken.
Qed.

(** A 200 from checkout tells the whole story of the run. *)
Lemma checkout_inv db r db' :
  run None (checkout now uid req) db = (Responded r, db') →
  code r = 200%nat →
  ∃ cart its,
    carts db !! uid = Some cart ∧ cart ≠ [] ∧ Forall (in_stock db) cart ∧
    orderItems (populate db <$> cart) = Some its ∧
    r = checkoutOk req (newId (orders db)) ∧
    db' = db_committed now uid req cart its db.
Proof.
  intros Hrun Hcode.
  destruct (carts db !! uid) as [cart|] eqn:Hcart.
  2: { rewrite checkout_empty in Hrun by auto. by simplify_eq. }
  destruct (decide (cart = [])) as [->|Hne].
  { rewrite checkout_empty in Hrun by auto. by simplify_eq. }
  destruct (first_failing db cart)
    as [Hall | (pre & i & post & -> & Hpre & [Hnone | (p & Hp & Hlt)])].
  - destruct (orderItems_populate db cart (in_stock_stored _ _ Hall)) as (its & Hits & _).
    rewrite (checkout_commits db cart its) in Hrun by done.
    simplify_eq. by exists cart, its.
  - rewrite (checkout_broken db pre i post) in Hrun by done. done.
  - rewrite (checkout_short db pre i post p) in Hrun by done.
    by simplify_eq.
Qed.

End Checkout.

(** ** Facts about the vocabulary *)

Lemma newId_fresh {V} (m : gmap ObjectId V) : m !! newId m = None.
Proof. apply not_elem_of_dom. unfold newId. apply is_fresh. Qed.

Lemma cart_qty_absent pid (cart : list CartItem) :
  pid ∉ product <$> cart → cart_qty pid cart = 0.
Proof.
  induction cart as [|i cart IH]; [done|].
  cbn [fmap list_fmap cart_qty foldr]. fold (cart_qty pid cart).
  intros Hnotin. apply not_elem_of_cons in Hnotin as [Hne Hnotin].
  rewrite bool_decide_eq_false_2 by done. rewrite IH; [lia | done].
Qed.


(** ** What later activity leaves of the orders *)

Lemma exec_orders {X} (op : Op X) db x db' :
  exec op db = Some (x, db') → orders db ⊆ orders db'.
Proof.
  destruct op; cbn; intros H; repeat case_match; simplify_eq; cbn; try done.
  apply insert_subseteq, newId_fresh.
Qed.



(** ** The orders a program writes *)









(** ** One attempt after the other *)

(** An attempt either commits, or changes nothing and does not answer 200. *)
Lemma attempt_cases a db :
  (∃ cart its,
     carts db !! at_user a = Some cart ∧ cart ≠ [] ∧ Forall (in_stock db) cart ∧
     orderItems (populate db <$> cart) = Some its ∧
     attempt a db = (Responded (checkoutOk (at_req a) (newId (orders db))),
                     db_committed (at_now a) (at_user a) (at_req a) cart its db))
  ∨ (succeeded (attempt a db).1 = false ∧ (attempt a db).2 = db).
Proof.
  unfold attempt. destruct a as [now uid req]. cbn [at_now at_user at_req].
  destruct (carts db !! uid) as [cart|] eqn:Hcart.
  2: { right. rewrite checkout_empty by auto. done. }
  destruct (decide (cart = [])) as [->|Hne].
  { right. rewrite checkout_empty by auto. done. }
  destruct (first_failing db cart)
    as [Hall | (pre & i & post & -> & Hpre & [Hnone | (p & Hp & Hlt)])].
  - left. destruct (orderItems_populate db cart (in_stock_stored _ _ Hall)) as (its & Hits & _).
    exists cart, its. repeat split; try done. by apply checkout_commits.
  - right. by rewrite (checkout_broken now uid req db pre i post).
  - right. by rewrite (checkout_short now uid req db pre i post p).
Qed.




(** ** A pool of one

    Scheduled alone, a handler ends as [run] says it does: the pool is the
    same semantics with room for other requests between the awaits. *)
Lemma schedule_alone (p : Prog Response) db :
  ∃ n q, schedule (replicate n 0%nat) ([p], db) = ([q], (run None p db).2) ∧
         finished q = Some (run None p db).1.
Proof.
  revert db. induction p as [r| |X op k IH]; intros db.
  - by exists 0%nat, (Ret r).
  - by exists 0%nat, Throw.
  - destruct (exec op db) as [[x db']|] eqn:He.
    + destruct (IH x db') as (n & q & Hn & Hq).
      exists (S n), q. cbn [replicate schedule foldl run fmap option_fmap option_map].
      unfold step. cbn [fst snd lookup list_lookup]. rewrite He.
      cbn [insert list_insert]. split; [exact Hn | exact Hq].
    + exists 1%nat, Throw. cbn [replicate schedule foldl run].
      unfold step. cbn [fst snd lookup list_lookup]. by rewrite He.
Qed.

(** ** The order routes *)

Lemma tracking_found id db o s :
  orders db !! id = Some o →
  shipments db !! shipment o = Some s →
  run None (tracking id) db
  = (Responded (json (TrackingBody (trackingNumber s) (Some (default "Created" (status s))))),
     db).
Proof. intros Ho Hs. cbn. rewrite Ho. cbn. by rewrite Hs. Qed.

Lemma tracking_no_order id db :
  orders db !! id = None →
  run None (tracking id) db = (Responded (status_json 404 (ErrorBody "Order not found")), db).
Proof. intros Ho. cbn. by rewrite Ho. Qed.

Lemma tracking_no_shipment id db o :
  orders db !! id = Some o →
  shipments db !! shipment o = None →
  run None (tracking id) db = (Rejected, db).
Proof. intros Ho Hs. cbn. rewrite Ho. cbn. by rewrite Hs. Qed.

Lemma updateShipment_run now id req db o s :
  orders db !! id = Some o →
  shipments db !! shipment o = Some s →
  run None (updateShipment now id req) db
  = (Responded (json (OkBody true)),
     set_shipments <[shipment o := mkShipment (trackingNumber s) (req !! "status") now]> db).
Proof. intros Ho Hs. cbn. rewrite Ho. cbn. rewrite Hs. cbn. by rewrite Hs. Qed.

Lemma updateShipment_no_order now id req db :
  orders db !! id = None →
  run None (updateShipment now id req) db
  = (Responded (status_json 404 (ErrorBody "Order not found")), db).
Proof. intros Ho. cbn. by rewrite Ho. Qed.

(** * The claims *)

(** C7. A checkout whose caller has no cart, or an empty one, answers 400
    "Empty cart" and leaves the whole store (stock, orders, shipments and
    carts) as it was; and however the run ends, a database failure included,
    the store is as it was. *)
Theorem checkout_empty_cart now uid req db :
  carts db !! uid = None ∨ carts db !! uid = Some [] →
  run None (checkout now uid req) db
    = (Responded (status_json 400 (ErrorBody "Empty cart")), db)
  ∧ ∀ f, (run f (checkout now uid req) db).2 = db.
Proof.
  intros H. split; [by apply checkout_empty|].
  intros [[|n]|]; cbn; [done| |]; destruct H as [H|H]; by rewrite H.
Qed.

Lemma checkout_empty_cart_witness :
  carts placed !! 7%N = Some [] ∧
  run None (checkout 1800 7%N cod_req) placed
    = (Responded (status_json 400 (ErrorBody "Empty cart")), placed).
Proof.
  split; [reflexivity|].
  apply (checkout_empty_cart 1800 7%N cod_req placed). right. reflexivity.
Defined.

(** C6 does not hold when a line for a product that is not stored comes
    before the short line: the validation loop throws on [null] there, no
    400 is written, and the short product is never named. Nothing is
    decremented. *)
Lemma missing_line_before_short_line :
  carts missing_then_short !! 7%N = Some [mkCartItem 9%N 1; mkCartItem 1%N 5] ∧
  products missing_then_short !! 9%N = None ∧
  stock_of 1%N missing_then_short = Some 1 ∧
  run None (checkout 1700 7%N cod_req) missing_then_short = (Rejected, missing_then_short).
Proof. vm_compute. repeat split; reflexivity. Qed.

(** C6, at the first line that fails the stock check. When that line's
    product is stored (its stock is then below the quantity asked),
    checkout answers 400 with the insufficient-stock message naming that
    product; when that line's product is not stored, the handler throws and
    writes no response. In both cases the store, every stock included, is
    as it was. *)
Theorem checkout_first_failing_line now uid req db pre i post :
  carts db !! uid = Some (pre ++ i :: post) →
  Forall (in_stock db) pre →
  ¬ in_stock db i →
  run None (checkout now uid req) db
  = (match products db !! product i with
     | Some p => Responded (status_json 400 (ErrorBody ("Not enough stock for " +:+ name p)))
     | None => Rejected
     end, db)
  ∧ ∀ p, products db !! product i = Some p → stock p < quantity i.
Proof.
  intros Hcart Hpre Hi.
  assert (Hshort : ∀ p, products db !! product i = Some p → stock p < quantity i).
  { intros p Hp. destruct (decide (quantity i ≤ stock p)) as [Hle|Hgt]; [|lia].
    exfalso. apply Hi. by exists p. }
  split; [|exact Hshort].
  destruct (products db !! product i) as [p|] eqn:Hp.
  - apply (checkout_short now uid req db pre i post p); auto.
  - by apply (checkout_broken now uid req db pre i post).
Qed.

Lemma checkout_first_failing_line_witness :
  run None (checkout 1700 7%N cod_req) short_second
  = (match products short_second !! product (mkCartItem 2%N 4) with
     | Some p => Responded (status_json 400 (ErrorBody ("Not enough stock for " +:+ name p)))
     | None => Rejected
     end, short_second)
  ∧ ∀ p, products short_second !! product (mkCartItem 2%N 4) = Some p →
         stock p < quantity (mkCartItem 2%N 4).
Proof.
  apply (checkout_first_failing_line 1700 7%N cod_req short_second
           [mkCartItem 1%N 2] (mkCartItem 2%N 4) []).
  - reflexivity.
  - repeat constructor. exists (mkProduct "P" 10 5 true "" []).
    split; [reflexivity | cbn; lia].
  - intros (p & Hp & Hle). vm_compute in Hp. injection Hp as <-. cbn in Hle. lia.
Defined.

(** C8. The order a successful checkout writes has paymentStatus "Pending"
    when the request's paymentMethod is "cod" and "Processing" otherwise, and
    the response's paymentRequired is the truth value of
    paymentMethod ≠ "cod". *)
Theorem checkout_payment_status now uid req db r db' :
  run None (checkout now uid req) db = (Responded r, db') →
  code r = 200%nat →
  ∃ oid o msg,
    body r = CheckoutBody oid (bool_decide (req !! "paymentMethod" ≠ Some "cod")) msg ∧
    orders db !! oid = None ∧ orders db' !! oid = Some o ∧
    paymentMethod o = req !! "paymentMethod" ∧
    paymentStatus o
    = if bool_decide (req !! "paymentMethod" = Some "cod") then "Pending" else "Processing".
Proof.
  intros Hrun Hcode.
  destruct (checkout_inv _ _ _ _ _ _ Hrun Hcode)
    as (cart & its & Hcart & Hne & Hall & Hits & -> & ->).
  exists (newId (orders db)), (newOrder now uid req its (newId (shipments db))).
  eexists. split; [reflexivity|].
  split; [apply newId_fresh|]. split; [|split; reflexivity].
  cbn. apply lookup_insert_eq.
Qed.

Lemma checkout_payment_status_witness :
  ∃ oid o msg,
    body (checkoutOk card_req 0%N) = CheckoutBody oid true msg ∧
    orders last_unit !! oid = None ∧
    orders (run None (checkout 1700 7%N card_req) last_unit).2 !! oid = Some o ∧
    paymentMethod o = Some "card" ∧ paymentStatus o = "Processing".
Proof.
  apply (checkout_payment_status 1700 7%N card_req last_unit (checkoutOk card_req 0%N)
           (run None (checkout 1700 7%N card_req) last_unit).2);
    vm_compute; reflexivity.
Defined.








(** Nor does it hold of a cart that lists a product on two lines: each line
    passes the check on its own, and both are taken. *)
Example oversell_by_doubled_line :
  succeeded (attempt (mkAttempt 1700 7%N cod_req) doubled_line).1 = true ∧
  stock_of 1%N (attempt (mkAttempt 1700 7%N cod_req) doubled_line).2 = Some (-1).
Proof. vm_compute. split; reflexivity. Qed.






(** C5 does not hold: no key is looked at. Two checkouts of one user carry the same
    idempotency key. One after the other, the second answers 400 "Empty
    cart", which is not what the first answered. Interleaved, both read the
    cart before either clears it, and two orders are written. *)
Lemma same_key_not_idempotent :
  let first := run None (checkout 1700 7%N keyed_req) two_units in
  let second := run None (checkout 1701 7%N keyed_req) first.2 in
  let both := schedule [0; 1; 0; 1; 0; 0; 1; 1; 0; 0; 0; 1; 1; 1]%nat
                ([checkout 1700 7%N keyed_req; checkout 1701 7%N keyed_req], two_units) in
  first.1 = Responded (checkoutOk keyed_req 0%N) ∧
  second.1 = Responded (status_json 400 (ErrorBody "Empty cart")) ∧
  second.1 ≠ first.1 ∧
  finished <$> both.1 = [Some (Responded (checkoutOk keyed_req 0%N));
                         Some (Responded (checkoutOk keyed_req 1%N))] ∧
  size (orders both.2) = 2%nat.
Proof. vm_compute. repeat split; (reflexivity || discriminate). Qed.

(** C5, what a repeated checkout does. The handler reads no idempotency key: of the request body
    only paymentMethod reaches it. When a checkout that succeeded is
    followed, with no other request in between, by a second checkout of the
    same user (with the same key, another or none), the pair creates exactly
    one Order: the second call finds the cart cleared, answers 400 "Empty
    cart" rather than the first call's result, and changes nothing. *)
Theorem checkout_repeated now1 now2 uid req1 req2 db r1 db1 :
  run None (checkout now1 uid req1) db = (Responded r1, db1) →
  code r1 = 200%nat →
  run None (checkout now2 uid req2) db1
    = (Responded (status_json 400 (ErrorBody "Empty cart")), db1)
  ∧ size (orders db1) = S (size (orders db))
  ∧ ∀ req, req !! "paymentMethod" = req1 !! "paymentMethod" →
           checkout now1 uid req = checkout now1 uid req1.
Proof.
  intros Hrun Hcode.
  destruct (checkout_inv _ _ _ _ _ _ Hrun Hcode)
    as (cart & its & Hcart & Hne & Hall & Hits & -> & ->).
  split; [|split].
  - apply checkout_empty. right. cbn. apply lookup_insert_eq.
  - cbn. apply map_size_insert_None, newId_fresh.
  - intros req Hreq. unfold checkout. by rewrite Hreq.
Qed.

Lemma checkout_repeated_witness :
  run None (checkout 1701 7%N keyed_req)
      (run None (checkout 1700 7%N keyed_req) two_units).2
    = (Responded (status_json 400 (ErrorBody "Empty cart")),
       (run None (checkout 1700 7%N keyed_req) two_units).2)
  ∧ size (orders (run None (checkout 1700 7%N keyed_req) two_units).2)
    = S (size (orders two_units))
  ∧ ∀ req, req !! "paymentMethod" = keyed_req !! "paymentMethod" →
           checkout 1700 7%N req = checkout 1700 7%N keyed_req.
Proof.
  apply (checkout_repeated 1700 1701 7%N keyed_req keyed_req two_units
           (checkoutOk keyed_req 0%N));
    vm_compute; reflexivity.
Defined.

(** C2 does not hold: no transition is refused. A shipment in state Created is moved straight
    to Delivered, back to Created, to Created again and to a word that is no
    status at all; every request answers 200. *)
Lemma shipment_status_unchecked :
  observed 0%N placed = Some "Created" ∧
  updates 0%N [(1800, {[ "status" := "Delivered" ]}); (1801, {[ "status" := "Created" ]});
               (1802, {[ "status" := "Created" ]}); (1803, {[ "status" := "lost" ]})] placed
  = [(Responded (json (OkBody true)), Some "Delivered");
     (Responded (json (OkBody true)), Some "Created");
     (Responded (json (OkBody true)), Some "Created");
     (Responded (json (OkBody true)), Some "lost")].
Proof. vm_compute. split; reflexivity. Qed.

(** C2, what an update does. For every sequence of shipment status update
    requests on an order that is stored together with its shipment, every
    request succeeds with 200 {ok: true} and sets the status to the one it
    names, whatever the status was; a request whose body names no status
    unsets the field, and the shipment then shows the schema default,
    "Created". The observed status sequence is the sequence of the requested
    statuses, "Created" standing for a request that names none. *)
Theorem shipment_update_sets_status id db o reqs :
  orders db !! id = Some o →
  is_Some (shipments db !! shipment o) →
  updates id reqs db
  = (λ nr, (Responded (json (OkBody true)), Some (default "Created" (nr.2 !! "status"))))
      <$> reqs.
Proof.
  revert db. induction reqs as [|[now req] reqs IH]; intros db Ho [s Hs]; [done|].
  cbn [updates fmap list_fmap].
  rewrite (updateShipment_run now id req db o s) by done.
  cbn [fst snd]. f_equal.
  - f_equal. unfold observed. cbn. rewrite Ho. cbn. by rewrite lookup_insert_eq.
  - apply IH; [done|]. cbn. rewrite lookup_insert_eq. by eexists.
Qed.

Lemma shipment_update_sets_status_witness :
  orders placed !! 0%N
    = Some (mkOrder 7%N [mkOrderItem 1%N 1 10 true] 10 (Some "cod") "Pending" 0%N 1700) ∧
  updates 0%N [(1800, {[ "status" := "Delivered" ]}); (1801, {[ "status" := "Shipped" ]});
               (1802, ∅)] placed
  = (λ nr : Z * gmap string string,
       (Responded (json (OkBody true)), Some (default "Created" (nr.2 !! "status"))))
      <$> [(1800, {[ "status" := "Delivered" ]}); (1801, {[ "status" := "Shipped" ]});
           (1802, ∅)].
Proof.
  split; [reflexivity|].
  apply (shipment_update_sets_status 0%N placed
           (mkOrder 7%N [mkOrderItem 1%N 1 10 true] 10 (Some "cod") "Pending" 0%N 1700)
           [(1800, {[ "status" := "Delivered" ]}); (1801, {[ "status" := "Shipped" ]});
            (1802, ∅)]).
  - reflexivity.
  - eexists. reflexivity.
Defined.

(** C9 at the input where the code departs from it. The order is stored and
    its shipment is not: the handler reads [trackingNumber] of [null], its
    promise is rejected, and no 404 (no response at all) is written. *)
Theorem tracking_without_shipment :
  orders dangling !! 0%N
    = Some (mkOrder 7%N [mkOrderItem 1%N 1 10 true] 10 (Some "cod") "Pending" 5%N 1700) ∧
  shipments dangling !! 5%N = None ∧
  run None (tracking 0%N) dangling = (Rejected, dangling).
Proof. vm_compute. repeat split; reflexivity. Qed.

(** * Further properties *)

(** ** What every database call keeps, every run and every schedule keeps *)

Section Preserved.
Context (R : DB → DB → Prop) `{!Reflexive R, !Transitive R}.
Hypothesis R_exec :
  ∀ X (op : Op X) db x db', exec op db = Some (x, db') → R db db'.

Lemma run_preserved {A} f (p : Prog A) db : R db (run f p db).2.
Proof.
  revert f db. induction p as [r| |X op k IH]; intros f db; cbn; [done..|].
  destruct f as [[|n]|]; [done| |];
    (destruct (exec op db) as [[x db']|] eqn:He; [|done]);
    (etrans; [by eapply R_exec | apply IH]).
Qed.

Lemma step_preserved i st : R st.2 (step i st).2.
Proof.
  unfold step. destruct (st.1 !! i) as [[r| |X op k]|]; [done..| |done].
  destruct (exec op st.2) as [[x db']|] eqn:He; [|done]. cbn. by eapply R_exec.
Qed.

Lemma schedule_preserved sched st : R st.2 (schedule sched st).2.
Proof.
  revert st. induction sched as [|i sched IH]; intros st; [done|].
  cbn. etrans; [apply (step_preserved i) | apply IH].
Qed.

End Preserved.

Lemma with_stock_with_stock a b p : with_stock a (with_stock b p) = with_stock a p.
Proof. by destruct p. Qed.

Lemma exec_catalog {X} (op : Op X) db x db' :
  exec op db = Some (x, db') → catalog db' = catalog db.
Proof.
  destruct op; cbn; intros H; repeat case_match; simplify_eq; try done.
  unfold catalog. cbn. rewrite fmap_insert, with_stock_with_stock.
  apply insert_id. rewrite lookup_fmap. by rewrite H0.
Qed.

Global Instance tracking_kept_refl : Reflexive tracking_kept.
Proof. intros db id s Hs. by exists s. Qed.

Global Instance tracking_kept_trans : Transitive tracking_kept.
Proof.
  intros db1 db2 db3 H12 H23 id s Hs.
  destruct (H12 id s Hs) as (s2 & Hs2 & E2).
  destruct (H23 id s2 Hs2) as (s3 & Hs3 & E3).
  exists s3. split; [done | congruence].
Qed.

Lemma exec_tracking_kept {X} (op : Op X) db x db' :
  exec op db = Some (x, db') → tracking_kept db db'.
Proof.
  destruct op; cbn; intros H; repeat case_match; simplify_eq;
    intros j s' Hs'; cbn; try (by exists s').
  - exists s'. split; [|done].
    rewrite lookup_insert_ne; [done|]. intros <-. by rewrite newId_fresh in Hs'.
  - destruct (decide (id = j)) as [<-|Hne].
    + rewrite lookup_insert_eq. eexists. split; [done|]. cbn. congruence.
    + rewrite lookup_insert_ne by done. by exists s'.
Qed.

(** ** Orders and the shipments they point to *)

Lemma refs_ok_mono (p : Prog Response) K K' : K ⊆ K' → refs_ok p K → refs_ok p K'.
Proof.
  revert K K'. induction p as [r| |X op k IH]; intros K K' HK; [done..|].
  destruct op; cbn; try (intros H x; eapply IH; [exact HK | apply H]).
  - intros H sid. eapply IH; [|apply H]. by apply union_mono_l.
  - intros [Hin H]. split; [set_solver|]. intros oid. eapply IH; [exact HK | apply H].
Qed.

(** One database call of a program that minds its references. *)
Lemma exec_refs {X} (op : Op X) (k : X → Prog Response) db x db' :
  orders_have_shipments db →
  refs_ok (Await op k) (dom (shipments db)) →
  exec op db = Some (x, db') →
  orders_have_shipments db' ∧ dom (shipments db) ⊆ dom (shipments db') ∧
  refs_ok (k x) (dom (shipments db')).
Proof.
  intros Hohs Hok He.
  destruct op; cbn in He, Hok; repeat case_match; simplify_eq; cbn;
    try (split; [exact Hohs | split; [done | apply Hok]]).
  - (* Shipment.create *)
    split; [|split].
    + intros id o Ho. cbn in *. destruct (Hohs id o Ho) as [s' Hs'].
      exists s'. rewrite lookup_insert_ne; [done|].
      intros E. rewrite <- E, newId_fresh in Hs'. done.
    + rewrite dom_insert_L. set_solver.
    + rewrite dom_insert_L. apply Hok.
  - (* Order.create *)
    destruct Hok as [Hin Hok]. split; [|split; [done | apply Hok]].
    intros id o' Ho'. cbn in *. apply lookup_insert_Some in Ho' as [[_ <-]|[_ Ho']].
    + by apply elem_of_dom.
    + by eapply Hohs.
  - (* shipment.save *)
    split; [|split].
    + intros id' o Ho. cbn in *. destruct (Hohs id' o Ho) as [s' Hs'].
      destruct (decide (id = shipment o)) as [->|Hne].
      * rewrite lookup_insert_eq. by eexists.
      * rewrite lookup_insert_ne by done. by eexists.
    + rewrite dom_insert_L. set_solver.
    + eapply refs_ok_mono; [|apply Hok]. rewrite dom_insert_L. set_solver.
Qed.

Lemma run_refs f (p : Prog Response) db :
  orders_have_shipments db →
  refs_ok p (dom (shipments db)) →
  orders_have_shipments (run f p db).2.
Proof.
  revert f db. induction p as [r| |X op k IH]; intros f db Hohs Hok; cbn; [done..|].
  destruct f as [[|n]|]; [done| |];
    (destruct (exec op db) as [[x db']|] eqn:He; [|done]);
    destruct (exec_refs op k db x db' Hohs Hok He) as (Hohs' & _ & Hok');
    by apply IH.
Qed.

Lemma step_refs i (pool : Pool) db :
  orders_have_shipments db →
  Forall (λ p, refs_ok p (dom (shipments db))) pool →
  orders_have_shipments (step i (pool, db)).2 ∧
  Forall (λ p, refs_ok p (dom (shipments (step i (pool, db)).2))) (step i (pool, db)).1.
Proof.
  intros Hohs Hpool. unfold step. cbn [fst snd].
  destruct (pool !! i) as [[r| |X op k]|] eqn:Hi; [done..| |done].
  assert (Hok : refs_ok (Await op k) (dom (shipments db)))
    by (rewrite Forall_lookup in Hpool; by eapply Hpool).
  destruct (exec op db) as [[x db']|] eqn:He; cbn [fst snd].
  - destruct (exec_refs op k db x db' Hohs Hok He) as (Hohs' & Hdom & Hok').
    split; [done|]. apply Forall_insert; [|done].
    eapply Forall_impl; [exact Hpool|]. intros q. by apply refs_ok_mono.
  - split; [done|]. by apply Forall_insert.
Qed.

Lemma schedule_refs sched (pool : Pool) db :
  orders_have_shipments db →
  Forall (λ p, refs_ok p (dom (shipments db))) pool →
  orders_have_shipments (schedule sched (pool, db)).2.
Proof.
  revert pool db. induction sched as [|i sched IH]; intros pool db Hohs Hpool; [done|].
  cbn. destruct (step_refs i pool db Hohs Hpool) as [Hohs' Hpool'].
  destruct (step i (pool, db)) as [pool' db'] eqn:Hstep. by apply IH.
Qed.

Lemma validateStock_refs its k K : refs_ok k K → refs_ok (validateStock its k) K.
Proof.
  intros Hk. induction its as [|i its IH]; [done|].
  cbn. destruct (populated i); [|done]. intros [q|]; [|done]. by case_bool_decide.
Qed.

Lemma reserveStock_refs its k K : refs_ok k K → refs_ok (reserveStock its k) K.
Proof.
  intros Hk. induction its as [|i its IH]; [done|].
  cbn. destruct (populated i); [|done]. intros [q|]; [|done]. by intros [].
Qed.

Lemma handler_refs p K : handler p → refs_ok p K.
Proof.
  destruct 1 as [now uid req | id | now id req].
  - cbn. intros [[|i its]|]; [done| |done].
    apply validateStock_refs, reserveStock_refs.
    destruct (orderItems (i :: its)); [|done]. cbn.
    intros sid. split; [set_solver|]. by intros oid [].
  - cbn. intros [[o [s|]]|]; done.
  - cbn. intros [o|]; [|done]. intros [s|]; [|done]. by intros [].
Qed.

(** ** Carts *)

Lemma same_string_true productId i :
  same_string productId i = true ↔ canonical productId = true ∧ product i = sent productId.
Proof.
  unfold same_string. rewrite andb_true_iff, bool_decide_eq_true. done.
Qed.

Lemma same_string_respelled productId i :
  canonical productId = false → same_string productId i = false.
Proof. unfold same_string. by intros ->. Qed.

Lemma cart_qty_cons pid i (l : list CartItem) :
  cart_qty pid (i :: l)
  = (if bool_decide (product i = pid) then quantity i else 0) + cart_qty pid l.
Proof. done. Qed.



Lemma products_raise q idx (l : list CartItem) :
  product <$> alter (λ i, mkCartItem (product i) (quantity i + q)) idx l = product <$> l.
Proof.
  revert idx. induction l as [|j l IH]; intros [|idx]; cbn; [done..|].
  f_equal. apply IH.
Qed.

Lemma cart_qty_remove pid productId (l : list CartItem) :
  cart_qty pid (filter (λ i, same_string productId i = false) l)
  = if bool_decide (canonical productId = true ∧ pid = sent productId)
    then 0 else cart_qty pid l.
Proof.
  induction l as [|i l IH]; [by case_bool_decide|].
  rewrite filter_cons. destruct (same_string productId i) eqn:E.
  - apply same_string_true in E as [Hc Hp].
    destruct (decide (true = false)) as [|_]; [done|].
    rewrite IH, cart_qty_cons. repeat case_bool_decide; try lia; naive_solver.
  - destruct (decide (false = false)) as [_|]; [|done].
    rewrite !cart_qty_cons, IH. repeat case_bool_decide; try lia.
    exfalso. destruct H as [Hc ->].
    assert (same_string productId i = true) by (apply same_string_true; done).
    congruence.
Qed.

Lemma NoDup_products_filter (P : CartItem → Prop) `{!∀ i, Decision (P i)} (l : list CartItem) :
  NoDup (product <$> l) → NoDup (product <$> filter P l).
Proof.
  induction l as [|i l IH]; [done|]. cbn [fmap list_fmap].
  intros [Hnotin Hnd]%NoDup_cons. rewrite filter_cons.
  destruct (decide (P i)); [|by apply IH].
  cbn [fmap list_fmap]. apply NoDup_cons. split; [|by apply IH].
  intros (j & Hj & Hin)%list_elem_of_fmap. apply list_elem_of_filter in Hin as [_ Hin].
  apply Hnotin. rewrite Hj. by apply list_elem_of_fmap_2.
Qed.

Lemma products_requantify productId q (l : list CartItem) :
  product <$> ((λ i, if same_string productId i
                     then mkCartItem (product i) q else i) <$> l)
  = product <$> l.
Proof.
  rewrite <- list_fmap_compose. apply list_fmap_ext. intros _ i _. cbn.
  by destruct (same_string productId i).
Qed.

Lemma filter_positive (l : list CartItem) :
  Forall (λ i, 0 < quantity i) l → filter (λ i, quantity i > 0) l = l.
Proof.
  induction 1 as [|i l Hi _ IH]; [done|].
  rewrite filter_cons_True by lia. by rewrite IH.
Qed.


(** X2. No cart route makes a cart list a product twice, as long as the
    ids sent to [POST /cart/add] are spelled as [toString()] spells them: if
    no cart of the store lists a product twice, none does after
    [GET /cart], after [POST /cart/update] or [POST /cart/remove] with any
    id, or after [POST /cart/add] with an id in that spelling. *)
Theorem cart_routes_keep_distinct uid productId quantity_ db :
  carts_distinct db →
  carts_distinct (getCart uid db).2 ∧
  (canonical productId = true →
   carts_distinct (addToCart uid productId quantity_ db).2) ∧
  carts_distinct (updateCart uid productId quantity_ db).2 ∧
  carts_distinct (removeFromCart uid productId db).2.
Proof.
  intros Hdist.
  assert (Hput : ∀ its, NoDup (product <$> its) →
            carts_distinct (set_carts <[uid := its]> db)).
  { intros its Hits u c. cbn. destruct (decide (uid = u)) as [<-|Hu].
    - rewrite lookup_insert_eq. by intros [= <-].
    - rewrite lookup_insert_ne by done. apply Hdist. }
  assert (Hmine : NoDup (product <$> default [] (carts db !! uid))).
  { destruct (carts db !! uid) as [its|] eqn:E; [by eapply Hdist | constructor]. }
  split; [|split; [|split]].
  - unfold getCart. destruct (carts db !! uid); [done|]. apply Hput. constructor.
  - intros Hcan. unfold addToCart. cbn zeta. cbn [snd]. apply Hput.
    destruct (list_find _ _) as [[idx i]|] eqn:Hfind.
    + by rewrite products_raise.
    + apply list_find_None in Hfind. rewrite fmap_app. apply NoDup_app.
      split; [done|]. split; [|apply NoDup_singleton].
      intros pid (j & Hj & Hin)%list_elem_of_fmap Hpid%list_elem_of_singleton.
      cbn in Hpid. rewrite Forall_forall in Hfind. apply (Hfind j Hin).
      apply same_string_true. split; [done | congruence].
  - unfold updateCart. destruct (carts db !! uid) as [its|] eqn:E; [|done].
    cbn [snd]. apply Hput. apply NoDup_products_filter.
    rewrite products_requantify. by eapply Hdist.
  - unfold removeFromCart. destruct (carts db !! uid) as [its|] eqn:E; [|done].
    cbn [snd]. apply Hput. apply NoDup_products_filter. by eapply Hdist.
Qed.

Lemma last_unit_distinct : carts_distinct last_unit.
Proof.
  intros u cart Hu. unfold last_unit in Hu. cbn [carts] in Hu.
  apply lookup_insert_Some in Hu as [[_ <-]|[_ Hu]].
  - apply (bool_decide_unpack _). by vm_compute.
  - apply lookup_singleton_Some in Hu as [_ <-].
    apply (bool_decide_unpack _). by vm_compute.
Defined.

Lemma cart_routes_keep_distinct_witness :
  carts_distinct (getCart 7%N last_unit).2 ∧
  (canonical (mkSentId 1%N true) = true →
   carts_distinct (addToCart 7%N (mkSentId 1%N true) (Some 2) last_unit).2) ∧
  carts_distinct (updateCart 7%N (mkSentId 1%N true) (Some 2) last_unit).2 ∧
  carts_distinct (removeFromCart 7%N (mkSentId 1%N true) last_unit).2.
Proof.
  apply (cart_routes_keep_distinct 7%N (mkSentId 1%N true) (Some 2) last_unit).
  exact last_unit_distinct.
Defined.

(** The same product id sent to [POST /cart/add] in another spelling is not
    found in the cart and is pushed as a second line of that product. *)
Example add_respelled_duplicates :
  cart_of 7%N (addToCart 7%N (mkSentId 1%N false) None last_unit).2
  = [mkCartItem 1%N 1; mkCartItem 1%N 1].
Proof. vm_compute. reflexivity. Qed.

(** Case analysis on the proposition a [bool_decide] of the goal tests. *)
Ltac case_on C H :=
  destruct (decide C) as [H|H];
  [rewrite (bool_decide_eq_true_2 C H) | rewrite (bool_decide_eq_false_2 C H)].

(** X4. On a cart that lists no product twice and whose lines are all above
    zero, [POST /cart/update] with an id spelled as [toString()] spells it
    sets what the cart asks of that product to the quantity sent (to 1 when
    none is sent, to nothing when the quantity is zero or less); a product
    the cart does not list stays unlisted, what the cart asks of every other
    product is as it was, and an id in another spelling changes nothing. *)
Theorem updateCart_sets uid productId quantity_ db its :
  carts db !! uid = Some its →
  NoDup (product <$> its) →
  Forall (λ i, 0 < quantity i) its →
  ∀ pid, cart_qty pid (cart_of uid (updateCart uid productId quantity_ db).2)
         = if bool_decide (canonical productId = true ∧ pid = sent productId ∧
                           sent productId ∈ product <$> its)
           then Z.max 0 (default 1 quantity_)
           else cart_qty pid its.
Proof.
  intros Hc Hnd Hpos pid. unfold updateCart. set (q := default 1 quantity_).
  unfold cart_of. rewrite Hc.
  cbn [snd carts set_carts]. rewrite lookup_insert_eq. cbn [default]. unfold id.
  clear Hc. induction its as [|i its IH].
  { cbn. case_bool_decide as Hd; [|done]. destruct Hd as (_ & _ & Hin).
    by apply elem_of_nil in Hin. }
  cbn [fmap list_fmap] in Hnd |- *. apply NoDup_cons in Hnd as [Hnotin Hnd].
  apply Forall_cons in Hpos as [Hi Hpos]. specialize (IH Hnd Hpos).
  rewrite filter_cons. destruct (same_string productId i) eqn:E.
  - apply same_string_true in E as [Hcan Hp].
    assert (Hrest : cart_qty pid
              (filter (λ j, quantity j > 0)
                 ((λ j, if same_string productId j
                        then mkCartItem (product j) q else j) <$> its))
              = cart_qty pid its).
    { rewrite IH. case_bool_decide as Hd; [|done]. destruct Hd as (_ & _ & Hin).
      exfalso. apply Hnotin. by rewrite Hp. }
    assert (Hzero : pid = sent productId → cart_qty pid its = 0).
    { intros ->. apply cart_qty_absent. by rewrite <- Hp. }
    cbn [quantity product].
    destruct (decide (q > 0)).
    + rewrite !cart_qty_cons, Hrest. cbn [product quantity].
      case_on (canonical productId = true ∧ pid = sent productId ∧
               sent productId ∈ product i :: (product <$> its)) Hd.
      * destruct Hd as (_ & -> & _). rewrite Hzero by done.
        rewrite bool_decide_eq_true_2 by done. lia.
      * rewrite (bool_decide_eq_false_2 (product i = pid)); [lia|].
        intros <-. apply Hd. split; [done|]. split; [done|].
        rewrite <- Hp. apply list_elem_of_here.
    + rewrite Hrest.
      case_on (canonical productId = true ∧ pid = sent productId ∧
               sent productId ∈ product i :: (product <$> its)) Hd.
      * destruct Hd as (_ & -> & _). rewrite Hzero by done. lia.
      * rewrite cart_qty_cons. rewrite (bool_decide_eq_false_2 (product i = pid)); [lia|].
        intros <-. apply Hd. split; [done|]. split; [done|].
        rewrite <- Hp. apply list_elem_of_here.
  - destruct (decide (quantity i > 0)); [|lia].
    rewrite !cart_qty_cons, IH.
    assert (Hne : canonical productId = true → product i ≠ sent productId).
    { intros Hcan Hp. assert (same_string productId i = true)
        by (apply same_string_true; done). congruence. }
    case_on (canonical productId = true ∧ pid = sent productId ∧
             sent productId ∈ product <$> its) Hd1;
    case_on (canonical productId = true ∧ pid = sent productId ∧
             sent productId ∈ product i :: (product <$> its)) Hd2.
    + destruct Hd1 as (Hcan & -> & _).
      rewrite (bool_decide_eq_false_2 (product i = sent productId)) by auto. lia.
    + exfalso. apply Hd2. destruct Hd1 as (Hcan & Hpid & Hin).
      split; [done|]. split; [done|]. by apply list_elem_of_further.
    + exfalso. apply Hd1. destruct Hd2 as (Hcan & Hpid & Hin).
      split; [done|]. split; [done|].
      apply elem_of_cons in Hin as [Hin|Hin]; [|done].
      exfalso. by apply (Hne Hcan).
    + lia.
Qed.

Lemma updateCart_sets_witness :
  cart_qty 1%N (cart_of 7%N (updateCart 7%N (mkSentId 1%N true) (Some 3) short_second).2)
  = if bool_decide (canonical (mkSentId 1%N true) = true ∧ 1%N = sent (mkSentId 1%N true) ∧
                    sent (mkSentId 1%N true)
                      ∈ product <$> [mkCartItem 1%N 2; mkCartItem 2%N 4])
    then Z.max 0 (default 1 (Some 3))
    else cart_qty 1%N [mkCartItem 1%N 2; mkCartItem 2%N 4].
Proof.
  refine (updateCart_sets 7%N (mkSentId 1%N true) (Some 3) short_second
            [mkCartItem 1%N 2; mkCartItem 2%N 4] _ _ _ 1%N).
  - reflexivity.
  - apply (bool_decide_unpack _). by vm_compute.
  - repeat constructor; cbn; lia.
Defined.

(** X5. After [POST /cart/remove] with an id spelled as [toString()] spells
    it, the caller's cart does not list that product and asks of every
    other product what it asked before; with the id in another spelling
    nothing is removed. Either way a second removal gives the same response
    and changes nothing. *)
Theorem removeFromCart_removes uid productId db its :
  carts db !! uid = Some its →
  let res := removeFromCart uid productId db in
  (canonical productId = true → sent productId ∉ product <$> cart_of uid res.2) ∧
  (∀ pid, cart_qty pid (cart_of uid res.2)
          = if bool_decide (canonical productId = true ∧ pid = sent productId)
            then 0 else cart_qty pid its) ∧
  removeFromCart uid productId res.2 = res.
Proof.
  intros Hc. unfold removeFromCart, cart_of. rewrite Hc. cbn zeta.
  cbn [snd carts set_carts]. rewrite lookup_insert_eq. cbn [default]. unfold id.
  split; [|split].
  - intros Hcan (j & Hj & Hin)%list_elem_of_fmap.
    apply list_elem_of_filter in Hin as [Hne _].
    assert (same_string productId j = true) by (apply same_string_true; done).
    congruence.
  - intros pid. apply cart_qty_remove.
  - rewrite list_filter_filter.
    assert (Hsame : filter (λ i, same_string productId i = false ∧
                                 same_string productId i = false) its
                    = filter (λ i, same_string productId i = false) its)
      by (apply list_filter_iff; tauto).
    rewrite Hsame. f_equal. unfold set_carts. cbn. f_equal. apply insert_insert_eq.
Qed.

Lemma removeFromCart_removes_witness :
  let res := removeFromCart 7%N (mkSentId 2%N true) short_second in
  (canonical (mkSentId 2%N true) = true →
   sent (mkSentId 2%N true) ∉ product <$> cart_of 7%N res.2) ∧
  (∀ pid, cart_qty pid (cart_of 7%N res.2)
          = if bool_decide (canonical (mkSentId 2%N true) = true ∧
                            pid = sent (mkSentId 2%N true))
            then 0 else cart_qty pid [mkCartItem 1%N 2; mkCartItem 2%N 4]) ∧
  removeFromCart 7%N (mkSentId 2%N true) res.2 = res.
Proof.
  apply (removeFromCart_removes 7%N (mkSentId 2%N true) short_second
           [mkCartItem 1%N 2; mkCartItem 2%N 4]).
  reflexivity.
Defined.

(** X6. On a cart whose lines are all above zero, [POST /cart/update] with a
    quantity of zero or less is [POST /cart/remove]: same response, same
    store. *)
Theorem updateCart_to_zero_removes uid productId q db its :
  carts db !! uid = Some its →
  Forall (λ i, 0 < quantity i) its →
  q ≤ 0 →
  updateCart uid productId (Some q) db = removeFromCart uid productId db.
Proof.
  intros Hc Hpos Hq. unfold updateCart, removeFromCart. rewrite Hc.
  assert (Heq : filter (λ i, quantity i > 0)
                  ((λ i, if same_string productId i
                         then mkCartItem (product i) (default 1 (Some q)) else i) <$> its)
                = filter (λ i, same_string productId i = false) its).
  { clear Hc. induction Hpos as [|i its Hi _ IH]; [done|].
    cbn [fmap list_fmap]. rewrite !filter_cons, IH.
    destruct (same_string productId i).
    - cbn [quantity default]. unfold id. destruct (decide (q > 0)); [lia|].
      destruct (decide (true = false)); done.
    - destruct (decide (quantity i > 0)); [|lia].
      destruct (decide (false = false)); done. }
  by rewrite Heq.
Qed.

Lemma updateCart_to_zero_removes_witness :
  updateCart 7%N (mkSentId 2%N true) (Some (-1)) short_second
  = removeFromCart 7%N (mkSentId 2%N true) short_second.
Proof.
  apply (updateCart_to_zero_removes 7%N (mkSentId 2%N true) (-1) short_second
           [mkCartItem 1%N 2; mkCartItem 2%N 4]).
  - reflexivity.
  - repeat constructor; cbn; lia.
  - lia.
Defined.



(** X8. A line for a product that is not stored blocks checkout. When the
    lines already in the caller's cart pass the stock check and the caller
    adds a product the store does not hold, the add is accepted, and the
    checkout that follows throws: it writes no response and leaves the
    store, the cart included, as the add left it. *)
Theorem add_unknown_blocks_checkout now uid req productId quantity_ db :
  products db !! sent productId = None →
  Forall (in_stock db) (cart_of uid db) →
  let res := addToCart uid productId quantity_ db in
  cart_code res.1 = 200%nat ∧
  run None (checkout now uid req) res.2 = (Rejected, res.2).
Proof.
  intros Hp Hall. cbn zeta. split; [done|].
  assert (Hfind : list_find (λ i, same_string productId i = true) (cart_of uid db) = None).
  { apply list_find_None. eapply Forall_impl; [exact Hall|].
    intros i (p & Hi & _) [_ E]%same_string_true. congruence. }
  apply (checkout_broken now uid req _ (cart_of uid db)
           (mkCartItem (sent productId) (default 1 quantity_)) []).
  - unfold addToCart. cbn zeta. cbn [snd carts set_carts].
    rewrite lookup_insert_eq. unfold cart_of in Hfind |- *. by rewrite Hfind.
  - exact Hall.
  - exact Hp.
Qed.

Lemma add_unknown_blocks_checkout_witness :
  let res := addToCart 7%N (mkSentId 9%N true) None last_unit in
  cart_code res.1 = 200%nat ∧
  run None (checkout 1700 7%N cod_req) res.2 = (Rejected, res.2).
Proof.
  apply (add_unknown_blocks_checkout 1700 7%N cod_req (mkSentId 9%N true) None last_unit).
  - reflexivity.
  - repeat constructor. exists (mkProduct "P" 10 1 true "" []).
    split; [reflexivity | cbn; lia].
Defined.

(** X22. Adding a product the cart does not list and removing it again,
    the id spelled both times as [toString()] spells it, gives the cart
    back as it was. *)
Theorem add_then_remove uid productId quantity_ db :
  canonical productId = true →
  sent productId ∉ product <$> cart_of uid db →
  cart_of uid (removeFromCart uid productId (addToCart uid productId quantity_ db).2).2
  = cart_of uid db.
Proof.
  intros Hcan Hnotin.
  assert (Hall : Forall (λ i, same_string productId i = false) (cart_of uid db)).
  { apply Forall_forall. intros i Hi.
    destruct (same_string productId i) eqn:E; [|done].
    apply same_string_true in E as [_ E]. exfalso. apply Hnotin. rewrite <- E.
    by apply list_elem_of_fmap_2. }
  assert (Hfind : list_find (λ i, same_string productId i = true) (cart_of uid db) = None).
  { apply list_find_None. eapply Forall_impl; [exact Hall|]. intros i Hi. congruence. }
  unfold removeFromCart, addToCart. cbn zeta. cbn [snd carts set_carts].
  rewrite lookup_insert_eq. unfold cart_of in *. rewrite Hfind.
  cbn [snd carts set_carts]. rewrite lookup_insert_eq. cbn [default]. unfold id.
  rewrite filter_app, filter_cons_False, filter_nil, app_nil_r.
  2: { unfold same_string. cbn [sent product]. rewrite Hcan.
       rewrite bool_decide_eq_true_2 by done. discriminate. }
  change (from_option (λ x : list CartItem, x) [] (carts db !! uid))
    with (default [] (carts db !! uid)).
  clear Hfind Hnotin. revert Hall. generalize (default [] (carts db !! uid)).
  intros its Hall. induction Hall as [|i its Hi _ IH]; [done|].
  rewrite filter_cons_True by done. by rewrite IH.
Qed.

Lemma add_then_remove_witness :
  cart_of 7%N (removeFromCart 7%N (mkSentId 2%N true)
                 (addToCart 7%N (mkSentId 2%N true) (Some 3) last_unit).2).2
  = cart_of 7%N last_unit.
Proof.
  apply (add_then_remove 7%N (mkSentId 2%N true) (Some 3) last_unit).
  - reflexivity.
  - intros (i & Hi & Hin)%list_elem_of_fmap.
    apply list_elem_of_singleton in Hin. subst i. discriminate.
Defined.

(** ** Orders, shipments and tracking *)

(** X9. The order id a successful checkout answers with can be tracked at
    once: [GET /orders/:id/tracking] answers 200 with the tracking number
    "TRK-" followed by the clock reading of the checkout, and the status
    "Created". *)
Theorem checkout_then_tracking now uid req db r db' :
  run None (checkout now uid req) db = (Responded r, db') →
  code r = 200%nat →
  ∃ oid pr msg,
    body r = CheckoutBody oid pr msg ∧
    run None (tracking oid) db'
    = (Responded (json (TrackingBody ("TRK-" +:+ pretty now) (Some "Created"))), db').
Proof.
  intros Hrun Hcode.
  destruct (checkout_inv _ _ _ _ _ _ Hrun Hcode)
    as (cart & its & Hcart & Hne & Hall & Hits & -> & ->).
  exists (newId (orders db)). do 2 eexists. split; [reflexivity|].
  apply (tracking_found _ _ (newOrder now uid req its (newId (shipments db)))
           (newShipment now)).
  - cbn. apply lookup_insert_eq.
  - cbn. apply lookup_insert_eq.
Qed.

Lemma checkout_then_tracking_witness :
  ∃ oid pr msg,
    body (checkoutOk cod_req 0%N) = CheckoutBody oid pr msg ∧
    run None (tracking oid) (run None (checkout 1700 7%N cod_req) last_unit).2
    = (Responded (json (TrackingBody ("TRK-" +:+ pretty 1700) (Some "Created"))),
       (run None (checkout 1700 7%N cod_req) last_unit).2).
Proof.
  apply (checkout_then_tracking 1700 7%N cod_req last_unit (checkoutOk cod_req 0%N)
           (run None (checkout 1700 7%N cod_req) last_unit).2);
    vm_compute; reflexivity.
Defined.

(** X10. A shipment update is what tracking shows next. On an order stored
    with its shipment, [POST /orders/:id/shipment] answers 200, and tracking
    the order then answers the same tracking number as before with the
    status the update sent, or "Created" (the schema default) when the
    update sent none; the products, carts and orders and every other
    shipment are as they were. *)
Theorem updateShipment_then_tracking now id req db o s :
  orders db !! id = Some o →
  shipments db !! shipment o = Some s →
  let res := run None (updateShipment now id req) db in
  res.1 = Responded (json (OkBody true)) ∧
  run None (tracking id) res.2
    = (Responded (json (TrackingBody (trackingNumber s)
                          (Some (default "Created" (req !! "status"))))), res.2) ∧
  products res.2 = products db ∧ carts res.2 = carts db ∧ orders res.2 = orders db ∧
  ∀ sid, sid ≠ shipment o → shipments res.2 !! sid = shipments db !! sid.
Proof.
  intros Ho Hs. cbn zeta. rewrite (updateShipment_run now id req db o s) by done.
  cbn [fst snd]. split; [done|]. split; [|repeat split].
  - rewrite (tracking_found id _ o (mkShipment (trackingNumber s) (req !! "status") now));
      [done | exact Ho | cbn; apply lookup_insert_eq].
  - intros sid Hsid. cbn. by rewrite lookup_insert_ne.
Qed.

Lemma updateShipment_then_tracking_witness :
  let res := run None (updateShipment 1800 0%N {[ "status" := "Shipped" ]}) placed in
  res.1 = Responded (json (OkBody true)) ∧
  run None (tracking 0%N) res.2
    = (Responded (json (TrackingBody "TRK-1700"
                          (Some (default "Created"
                                   (({[ "status" := "Shipped" ]} : gmap string string)
                                      !! "status"))))),
       res.2) ∧
  products res.2 = products placed ∧ carts res.2 = carts placed ∧
  orders res.2 = orders placed ∧
  ∀ sid, sid ≠ 0%N → shipments res.2 !! sid = shipments placed !! sid.
Proof.
  apply (updateShipment_then_tracking 1800 0%N {[ "status" := "Shipped" ]} placed
           (mkOrder 7%N [mkOrderItem 1%N 1 10 true] 10 (Some "cod") "Pending" 0%N 1700)
           (mkShipment "TRK-1700" (Some "Created") 1700));
    reflexivity.
Defined.

(** X11. No shipment is ever deleted and no tracking number ever changes:
    a shipment stored before any handlers run, interleaved in any order or
    alone with a database failure anywhere, is stored afterwards under the
    same id with the same tracking number. *)
Theorem tracking_numbers_kept sched (pool : Pool) f (p : Prog Response) db id s :
  shipments db !! id = Some s →
  (∃ s', shipments (schedule sched (pool, db)).2 !! id = Some s' ∧
         trackingNumber s' = trackingNumber s) ∧
  (∃ s', shipments (run f p db).2 !! id = Some s' ∧
         trackingNumber s' = trackingNumber s).
Proof.
  intros Hs. split.
  - by apply (schedule_preserved tracking_kept (@exec_tracking_kept) sched (pool, db)).
  - by apply (run_preserved tracking_kept (@exec_tracking_kept) f p db).
Qed.

Lemma tracking_numbers_kept_witness :
  (∃ s', shipments (schedule [0; 1; 0; 0; 1]%nat
                      ([updateShipment 1800 0%N {[ "status" := "Shipped" ]};
                        updateShipment 1801 0%N {[ "status" := "Delivered" ]}],
                       placed)).2 !! 0%N = Some s' ∧
         trackingNumber s' = "TRK-1700") ∧
  (∃ s', shipments (run (Some 2%nat)
                      (updateShipment 1800 0%N {[ "status" := "Shipped" ]}) placed).2
           !! 0%N = Some s' ∧
         trackingNumber s' = "TRK-1700").
Proof.
  apply (tracking_numbers_kept [0; 1; 0; 0; 1]%nat
           [updateShipment 1800 0%N {[ "status" := "Shipped" ]};
            updateShipment 1801 0%N {[ "status" := "Delivered" ]}]
           (Some 2%nat) (updateShipment 1800 0%N {[ "status" := "Shipped" ]})
           placed 0%N (mkShipment "TRK-1700" (Some "Created") 1700)).
  reflexivity.
Defined.

(** X12. No route touches the catalog: after any handlers, interleaved in
    any order or run alone with a database failure anywhere, and after
    every cart route, the set of products and each product's name, price,
    codAvailable flag, description and images are what they were. Stock is
    the only product field the code ever writes. *)
Theorem catalog_fixed sched (pool : Pool) f (p : Prog Response) uid productId quantity_ q db :
  catalog (schedule sched (pool, db)).2 = catalog db ∧
  catalog (run f p db).2 = catalog db ∧
  catalog (getCart uid db).2 = catalog db ∧
  catalog (addToCart uid productId quantity_ db).2 = catalog db ∧
  catalog (updateCart uid productId q db).2 = catalog db ∧
  catalog (removeFromCart uid productId db).2 = catalog db.
Proof.
  assert (Hr : Reflexive (λ db1 db2 : DB, catalog db2 = catalog db1)) by (by intros ?).
  assert (Ht : Transitive (λ db1 db2 : DB, catalog db2 = catalog db1))
    by (intros ??? H1 H2; by rewrite H2).
  split; [|split; [|repeat split]].
  - apply (@schedule_preserved _ Hr Ht (@exec_catalog) sched (pool, db)).
  - apply (@run_preserved _ Hr Ht (@exec_catalog) _ f p db).
  - unfold getCart. by destruct (carts db !! uid).
  - unfold updateCart. by destruct (carts db !! uid).
  - unfold removeFromCart. by destruct (carts db !! uid).
Qed.

(** X13. No schedule removes or rewrites an order: an order stored before
    handlers run, interleaved in any order, is stored unchanged under the
    same id afterwards. *)
Theorem orders_append_only sched (pool : Pool) db id o :
  orders db !! id = Some o →
  orders (schedule sched (pool, db)).2 !! id = Some o.
Proof.
  intros Ho. eapply lookup_weaken; [exact Ho|].
  assert (Hr : Reflexive (λ db1 db2 : DB, orders db1 ⊆ orders db2)) by (by intros ?).
  assert (Ht : Transitive (λ db1 db2 : DB, orders db1 ⊆ orders db2))
    by (intros ??? H1 H2; by etrans).
  apply (@schedule_preserved _ Hr Ht (@exec_orders) sched (pool, db)).
Qed.

Lemma orders_append_only_witness :
  orders (schedule [0; 1; 0; 1; 1; 1; 1; 1; 1]%nat
            ([updateShipment 1800 0%N {[ "status" := "Shipped" ]};
              checkout 1801 8%N cod_req],
             set_carts (λ _, {[ 8%N := [mkCartItem 1%N 0] ]}) placed)).2 !! 0%N
  = Some (mkOrder 7%N [mkOrderItem 1%N 1 10 true] 10 (Some "cod") "Pending" 0%N 1700).
Proof.
  apply (orders_append_only [0; 1; 0; 1; 1; 1; 1; 1; 1]%nat
           [updateShipment 1800 0%N {[ "status" := "Shipped" ]};
            checkout 1801 8%N cod_req]
           (set_carts (λ _, {[ 8%N := [mkCartItem 1%N 0] ]}) placed) 0%N).
  reflexivity.
Defined.

(** X14. Orders never point to a missing shipment by the handlers' doing:
    if every stored order has its shipment stored, this still holds after
    checkout, tracking and shipment-update handlers ran, interleaved in any
    order or alone with a database failure anywhere. *)
Theorem handlers_keep_references sched (pool : Pool) f (p : Prog Response) db :
  orders_have_shipments db →
  Forall handler pool →
  handler p →
  orders_have_shipments (schedule sched (pool, db)).2 ∧
  orders_have_shipments (run f p db).2.
Proof.
  intros Hohs Hpool Hp. split.
  - apply schedule_refs; [done|].
    eapply Forall_impl; [exact Hpool|]. intros q. apply handler_refs.
  - apply run_refs; [done|]. by apply handler_refs.
Qed.

Lemma placed_and_cart_references : orders_have_shipments placed_and_cart.
Proof.
  intros id o Ho. unfold placed_and_cart, placed in Ho. cbn [orders set_carts] in Ho.
  apply lookup_singleton_Some in Ho as [_ <-]. by eexists.
Defined.

Lemma handlers_keep_references_witness :
  orders_have_shipments
    (schedule [0; 1; 0; 1; 1; 1; 1; 1; 1; 0]%nat
       ([updateShipment 1800 0%N {[ "status" := "Shipped" ]}; checkout 1801 8%N cod_req],
        placed_and_cart)).2 ∧
  orders_have_shipments (run (Some 6%nat) (checkout 1801 8%N cod_req) placed_and_cart).2.
Proof.
  apply (handlers_keep_references [0; 1; 0; 1; 1; 1; 1; 1; 1; 0]%nat
           [updateShipment 1800 0%N {[ "status" := "Shipped" ]}; checkout 1801 8%N cod_req]
           (Some 6%nat) (checkout 1801 8%N cod_req) placed_and_cart).
  - exact placed_and_cart_references.
  - repeat constructor.
  - constructor.
Defined.

(** The stores of that witness hold orders: the one placed before, and the
    one the checkout writes, also when its last database call fails. *)
Example handlers_keep_references_orders :
  size (orders (schedule [0; 1; 0; 1; 1; 1; 1; 1; 1; 0]%nat
                  ([updateShipment 1800 0%N {[ "status" := "Shipped" ]};
                    checkout 1801 8%N cod_req], placed_and_cart)).2) = 2%nat ∧
  size (orders (run (Some 6%nat) (checkout 1801 8%N cod_req) placed_and_cart).2) = 2%nat.
Proof. vm_compute. split; reflexivity. Qed.

(** X15. On a store where every order has its shipment stored, tracking a
    well-formed order id always answers: 200 with the shipment's tracking
    number and its status ("Created" when the stored shipment has none) when
    the order is stored, 404 "Order not found" when it is not; the store is
    not changed. *)
Theorem tracking_answers id db :
  orders_have_shipments db →
  ∃ r, run None (tracking id) db = (Responded r, db) ∧
       match orders db !! id with
       | Some o => ∃ s, shipments db !! shipment o = Some s ∧
                        r = json (TrackingBody (trackingNumber s)
                                    (Some (default "Created" (status s))))
       | None => r = status_json 404 (ErrorBody "Order not found")
       end.
Proof.
  intros Hohs. destruct (orders db !! id) as [o|] eqn:Ho.
  - destruct (Hohs id o Ho) as [s Hs]. eexists. split.
    + by apply (tracking_found id db o s).
    + by exists s.
  - eexists. split; [by apply tracking_no_order | done].
Qed.

Lemma tracking_answers_witness :
  ∃ r, run None (tracking 0%N) placed = (Responded r, placed) ∧
       match orders placed !! 0%N with
       | Some o => ∃ s, shipments placed !! shipment o = Some s ∧
                        r = json (TrackingBody (trackingNumber s)
                                    (Some (default "Created" (status s))))
       | None => r = status_json 404 (ErrorBody "Order not found")
       end.
Proof.
  apply (tracking_answers 0%N placed).
  intros id o Ho. unfold placed in Ho. cbn [orders] in Ho.
  apply lookup_singleton_Some in Ho as [_ <-]. by eexists.
Defined.

(** X16. A checkout that is not interrupted by a database failure and does
    not answer 200 changes nothing: whether it answers 400 or throws, the
    stock, the carts, the orders and the shipments are as they were. *)
Theorem checkout_refused_changes_nothing now uid req db :
  succeeded (run None (checkout now uid req) db).1 = false →
  (run None (checkout now uid req) db).2 = db.
Proof.
  intros Hfail.
  destruct (attempt_cases (mkAttempt now uid req) db)
    as [(cart & its & _ & _ & _ & _ & Hrun) | [_ Hsame]]; [|exact Hsame].
  unfold attempt in Hrun. cbn [at_now at_user at_req] in Hrun.
  rewrite Hrun in Hfail. discriminate.
Qed.

Lemma checkout_refused_changes_nothing_witness :
  (run None (checkout 1700 7%N cod_req) short_second).2 = short_second.
Proof.
  apply (checkout_refused_changes_nothing 1700 7%N cod_req short_second).
  reflexivity.
Defined.

(** X17. When checkout throws. A checkout that no database failure
    interrupts ends without a response exactly when the first cart line
    that does not pass the stock check names a product that is not stored;
    in every other case it answers. *)
Theorem checkout_throws_iff now uid req db :
  (run None (checkout now uid req) db).1 = Rejected ↔
  ∃ pre i post,
    cart_of uid db = pre ++ i :: post ∧ Forall (in_stock db) pre ∧
    products db !! product i = None.
Proof.
  split.
  - intros Hrej. unfold cart_of.
    destruct (carts db !! uid) as [cart|] eqn:Hcart.
    2: { rewrite checkout_empty in Hrej by auto. discriminate. }
    destruct (decide (cart = [])) as [->|Hne].
    { rewrite checkout_empty in Hrej by auto. discriminate. }
    destruct (first_failing db cart)
      as [Hall | (pre & i & post & -> & Hpre & [Hnone | (p & Hp & Hlt)])].
    + destruct (orderItems_populate db cart (in_stock_stored _ _ Hall)) as (its & Hits & _).
      rewrite (checkout_commits now uid req db cart its) in Hrej by done. discriminate.
    + by exists pre, i, post.
    + rewrite (checkout_short now uid req db pre i post p) in Hrej by done.
      discriminate.
  - intros (pre & i & post & Hcart & Hpre & Hnone). unfold cart_of in Hcart.
    destruct (carts db !! uid) as [cart|] eqn:Hc; cbn in Hcart.
    + subst cart. by rewrite (checkout_broken now uid req db pre i post).
    + by destruct pre.
Qed.

(** X18. A product that is out of stock cannot be bought. When the cart
    holds a line of quantity one or more for a stored product whose
    [isAvailable] is false, checkout does not answer 200 and changes
    nothing. *)
Theorem unavailable_not_sold now uid req db cart i p :
  carts db !! uid = Some cart →
  i ∈ cart →
  products db !! product i = Some p →
  isAvailable p = false →
  1 ≤ quantity i →
  succeeded (run None (checkout now uid req) db).1 = false ∧
  (run None (checkout now uid req) db).2 = db.
Proof.
  intros Hcart Hi Hp Hav Hq.
  destruct (attempt_cases (mkAttempt now uid req) db)
    as [(cart' & its & Hcart' & _ & Hall & _ & _) | Hsame]; [|exact Hsame].
  exfalso. cbn [at_user] in Hcart'. simplify_eq.
  rewrite Forall_forall in Hall. destruct (Hall i Hi) as (p' & Hp' & Hle).
  simplify_eq. unfold isAvailable in Hav. apply bool_decide_eq_false in Hav. lia.
Qed.

Lemma unavailable_not_sold_witness :
  succeeded (run None (checkout 1700 7%N cod_req)
               (set_carts (λ _, {[ 7%N := [mkCartItem 1%N 1] ]}) placed)).1 = false ∧
  (run None (checkout 1700 7%N cod_req)
     (set_carts (λ _, {[ 7%N := [mkCartItem 1%N 1] ]}) placed)).2
  = set_carts (λ _, {[ 7%N := [mkCartItem 1%N 1] ]}) placed.
Proof.
  apply (unavailable_not_sold 1700 7%N cod_req
           (set_carts (λ _, {[ 7%N := [mkCartItem 1%N 1] ]}) placed)
           [mkCartItem 1%N 1] (mkCartItem 1%N 1) (mkProduct "P" 10 0 true "" [])).
  - reflexivity.
  - apply list_elem_of_here.
  - reflexivity.
  - reflexivity.
  - cbn. lia.
Defined.

(** X19. Tracking numbers are the clock reading and nothing else. Of two
    checkouts that succeed one after the other, the two shipments are
    stored under different ids, and their tracking numbers are equal
    exactly when both handlers read the same [Date.now()]. *)
Theorem tracking_numbers_collide now1 now2 u1 u2 req1 req2 db r1 db1 r2 db2 :
  run None (checkout now1 u1 req1) db = (Responded r1, db1) →
  code r1 = 200%nat →
  run None (checkout now2 u2 req2) db1 = (Responded r2, db2) →
  code r2 = 200%nat →
  ∃ sid1 sid2 s1 s2,
    sid1 ≠ sid2 ∧
    shipments db !! sid1 = None ∧ shipments db !! sid2 = None ∧
    shipments db2 !! sid1 = Some s1 ∧ shipments db2 !! sid2 = Some s2 ∧
    (trackingNumber s1 = trackingNumber s2 ↔ now1 = now2).
Proof.
  intros Hrun1 Hcode1 Hrun2 Hcode2.
  destruct (checkout_inv _ _ _ _ _ _ Hrun1 Hcode1)
    as (cart1 & its1 & _ & _ & _ & _ & -> & ->).
  destruct (checkout_inv _ _ _ _ _ _ Hrun2 Hcode2)
    as (cart2 & its2 & _ & _ & _ & _ & -> & ->).
  set (sid1 := newId (shipments db)).
  set (sh1 := <[sid1 := newShipment now1]> (shipments db)).
  assert (Hsh1 : shipments (db_committed now1 u1 req1 cart1 its1 db) = sh1) by done.
  set (sid2 := newId sh1).
  assert (Hne : sid1 ≠ sid2).
  { intros E. pose proof (newId_fresh sh1) as Hf. fold sid2 in Hf.
    rewrite <- E in Hf. unfold sh1 in Hf. by rewrite lookup_insert_eq in Hf. }
  assert (Hfresh2 : shipments db !! sid2 = None).
  { pose proof (newId_fresh sh1) as Hf. fold sid2 in Hf. unfold sh1 in Hf.
    by rewrite lookup_insert_ne in Hf. }
  exists sid1, sid2, (newShipment now1), (newShipment now2).
  split; [done|]. split; [apply newId_fresh|]. split; [done|].
  split; [|split].
  - cbn. rewrite lookup_insert_ne by done. apply lookup_insert_eq.
  - cbn. apply lookup_insert_eq.
  - cbn. split.
    + intros E. by apply (inj pretty), (inj (String.app "TRK-")).
    + by intros ->.
Qed.

Lemma tracking_numbers_collide_witness :
  ∃ sid1 sid2 s1 s2,
    sid1 ≠ sid2 ∧
    shipments last_unit !! sid1 = None ∧ shipments last_unit !! sid2 = None ∧
    shipments (serve [mkAttempt 1700 7%N cod_req; mkAttempt 1700 8%N cod_req]
                 (set_products (λ _, {[ 1%N := mkProduct "P" 10 2 true "" [] ]}) last_unit))
      !! sid1 = Some s1 ∧
    shipments (serve [mkAttempt 1700 7%N cod_req; mkAttempt 1700 8%N cod_req]
                 (set_products (λ _, {[ 1%N := mkProduct "P" 10 2 true "" [] ]}) last_unit))
      !! sid2 = Some s2 ∧
    (trackingNumber s1 = trackingNumber s2 ↔ 1700 = 1700).
Proof.
  apply (tracking_numbers_collide 1700 1700 7%N 8%N cod_req cod_req
           (set_products (λ _, {[ 1%N := mkProduct "P" 10 2 true "" [] ]}) last_unit)
           (checkoutOk cod_req 0%N)
           (serve [mkAttempt 1700 7%N cod_req]
              (set_products (λ _, {[ 1%N := mkProduct "P" 10 2 true "" [] ]}) last_unit))
           (checkoutOk cod_req 1%N));
    vm_compute; reflexivity.
Defined.

(** ** The order list *)

Lemma elem_of_listOrders l uid db :
  l ∈ listOrders uid db ↔
  orders db !! lo_id l = Some (lo_order l) ∧ user (lo_order l) = uid ∧
  lo_products l = (λ it, products db !! oi_product it) <$> items (lo_order l) ∧
  lo_shipment l = loaded <$> shipments db !! shipment (lo_order l).
Proof.
  unfold listOrders. rewrite list_elem_of_fmap. split.
  - intros ([id o] & -> & Hin). apply elem_of_map_to_list in Hin.
    apply map_lookup_filter_Some in Hin as [Ho Hu]. by cbn in *.
  - intros (Ho & Hu & Hp & Hs). exists (lo_id l, lo_order l). split.
    + destruct l. cbn in *. by subst.
    + apply elem_of_map_to_list, map_lookup_filter_Some. by cbn.
Qed.

(** X21. The order a successful checkout writes is in the caller's order
    list right away, under the id the checkout answered, with its shipment
    in state "Created"; and every order that was listed for any user before
    the checkout is still listed for that user, the same document under the
    same id. *)
Theorem checkout_then_listOrders now uid req db r db' :
  run None (checkout now uid req) db = (Responded r, db') →
  code r = 200%nat →
  ∃ oid pr msg l,
    body r = CheckoutBody oid pr msg ∧
    l ∈ listOrders uid db' ∧ lo_id l = oid ∧
    lo_shipment l = Some (newShipment now) ∧
    ∀ u l0, l0 ∈ listOrders u db →
      ∃ l1, l1 ∈ listOrders u db' ∧ lo_id l1 = lo_id l0 ∧ lo_order l1 = lo_order l0.
Proof.
  intros Hrun Hcode.
  destruct (checkout_inv _ _ _ _ _ _ Hrun Hcode)
    as (cart & its & Hcart & Hne & Hall & Hits & -> & ->).
  set (db' := db_committed now uid req cart its db).
  set (o := newOrder now uid req its (newId (shipments db))).
  assert (Ho : orders db' !! newId (orders db) = Some o)
    by (cbn; apply lookup_insert_eq).
  exists (newId (orders db)). do 2 eexists.
  exists (mkListedOrder (newId (orders db)) o
            ((λ it, products db' !! oi_product it) <$> items o)
            (loaded <$> shipments db' !! shipment o)).
  split; [reflexivity|]. split; [apply elem_of_listOrders; by cbn|].
  split; [done|]. split; [cbn; by rewrite lookup_insert_eq|].
  intros u l0 Hl0. apply elem_of_listOrders in Hl0 as (Ho0 & Hu0 & _ & _).
  exists (mkListedOrder (lo_id l0) (lo_order l0)
            ((λ it, products db' !! oi_product it) <$> items (lo_order l0))
            (loaded <$> shipments db' !! shipment (lo_order l0))).
  split; [|done]. apply elem_of_listOrders. cbn [lo_id lo_order lo_products lo_shipment].
  split; [|done]. cbn. rewrite lookup_insert_ne; [done|].
  intros E. rewrite <- E, newId_fresh in Ho0. discriminate.
Qed.

Lemma checkout_then_listOrders_witness :
  ∃ oid pr msg l,
    body (checkoutOk cod_req 0%N) = CheckoutBody oid pr msg ∧
    l ∈ listOrders 7%N (run None (checkout 1700 7%N cod_req) last_unit).2 ∧
    lo_id l = oid ∧
    lo_shipment l = Some (newShipment 1700) ∧
    ∀ u l0, l0 ∈ listOrders u last_unit →
      ∃ l1, l1 ∈ listOrders u (run None (checkout 1700 7%N cod_req) last_unit).2 ∧
            lo_id l1 = lo_id l0 ∧ lo_order l1 = lo_order l0.
Proof.
  apply (checkout_then_listOrders 1700 7%N cod_req last_unit (checkoutOk cod_req 0%N)
           (run None (checkout 1700 7%N cod_req) last_unit).2);
    vm_compute; reflexivity.
Defined.

(** ** Where a database failure leaves a checkout *)

Lemma validate_fault db cart k j :
  Forall (in_stock db) cart →
  (j < length cart)%nat →
  run (Some j) (validateStock (populate db <$> cart) k) db = (Rejected, db).
Proof.
  revert j. induction cart as [|i cart IH]; intros j Hall Hj; [cbn in Hj; lia|].
  apply Forall_cons in Hall as [(p & Hp & Hq) Hall].
  cbn [fmap list_fmap validateStock populate populated ref qty]. rewrite Hp.
  destruct j as [|j]; [done|].
  rewrite (run_await (Some (S j)) (ProductFindById (product i)) _ db (Some p) db);
    [| intros n [= <-]; lia | by cbn; rewrite Hp].
  rewrite bool_decide_eq_false_2 by lia. cbn [fmap option_fmap option_map Nat.pred].
  apply IH; [done | cbn in Hj; lia].
Qed.


(** X23. A database failure before the decrement loop costs nothing. For a
    cart that passes the stock check, when the cart read or one of the
    product reads of the validation loop fails (database call [j] with
    [j ≤ n], [n] the number of cart lines), the handler ends without a
    response and the store is as it was. *)
Theorem checkout_fault_before_decrement now uid req db cart j :
  carts db !! uid = Some cart →
  Forall (in_stock db) cart →
  (j ≤ length cart)%nat →
  run (Some j) (checkout now uid req) db = (Rejected, db).
Proof.
  intros Hcart Hall Hj. destruct j as [|j]; [done|].
  unfold checkout.
  rewrite (run_await (Some (S j)) (CartFindOnePopulate uid) _ db
             (Some (populate db <$> cart)) db);
    [| intros n [= <-]; lia | by cbn; rewrite Hcart].
  cbn [fmap option_fmap option_map Nat.pred].
  destruct cart as [|i0 cart0] eqn:Ecart; [cbn in Hj; lia|]. rewrite <- Ecart in *.
  assert (Hshape : ∀ (P : Prog Response) Q,
    match populate db <$> cart with [] => P | _ :: _ => Q end = Q)
    by (intros; by rewrite Ecart).
  replace (populate db <$> i0 :: cart0) with (populate db <$> cart) by by rewrite Ecart.
  rewrite Hshape. apply validate_fault; [done | lia].
Qed.

Lemma checkout_fault_before_decrement_witness :
  run (Some 1%nat) (checkout 1700 7%N cod_req) last_unit = (Rejected, last_unit).
Proof.
  apply (checkout_fault_before_decrement 1700 7%N cod_req last_unit [mkCartItem 1%N 1]).
  - reflexivity.
  - repeat constructor. exists (mkProduct "P" 10 1 true "" []).
    split; [reflexivity | cbn; lia].
  - cbn. lia.
Defined.




